(** * TimeSeriesChart: axis scaling and price/volume colouring

    A shallow embedding of the [useEffect] body and of the render function of
    the [TimeSeriesChart] component.

    Numbers.  A JavaScript [number] is modelled by an exact rational ([Q]):
    the arithmetic of the component is [+], [-], [*], [/], [Math.abs],
    [Math.max] and comparisons, and the model performs it without rounding.
    IEEE-754 rounding, overflow and the sign of zero are outside the model.
    The one way the component can leave the finite numbers is a division by
    [preClose]; such quotients live in [JS.num], which adds [Infinity],
    [-Infinity] and [NaN] to the rationals.  Equalities between numbers are
    stated with [==] ([Qeq]), the equality of rationals as numbers.
    Where a statement turns on the rounding of the program's own numbers,
    the axis computation is given a second time in [Binary64], on binary64
    floating-point numbers with the operations of the program.

    Presentation.  Fonts, line styles, gradients and the HTML markup of the
    tooltip carry no computation; the option record keeps the fields that
    are computed from the props, and a tooltip is a list of rows. *)

From Stdlib Require Import QArith Qabs Qminmax Qround ZArith List Bool.
From Stdlib Require Import Ascii String DecimalString Lia Lqa.
From Stdlib Require Import Permutation Sorted.
From Stdlib Require PrimFloat.
Import ListNotations.

Local Open Scope Q_scope.

(** ** JavaScript primitives *)

Module JS.

(** Relational operators on finite numbers. *)
Definition ge (a b : Q) : bool := Qle_bool b a.
Definition gt (a b : Q) : bool := negb (Qle_bool a b).
Definition lt (a b : Q) : bool := negb (Qle_bool b a).

(** [Math.max(...args, last)]: the call of the component always has a last
    argument, so the maximum is taken over at least one number. *)
Definition Math_max (args : list Q) (last : Q) : Q := fold_right Qmax last args.

(** Numbers that a division may produce. *)
Inductive num : Type :=
| Finite (q : Q)
| PosInf
| NegInf
| NaN.

(** [a / b] for finite [a] and [b]. *)
Definition div (a b : Q) : num :=
  if Qeq_bool b 0 then
    (if Qeq_bool a 0 then NaN else if gt a 0 then PosInf else NegInf)
  else Finite (a / b).

(** [x * c] for a finite [c]. *)
Definition mul (x : num) (c : Q) : num :=
  match x with
  | Finite q => Finite (q * c)
  | NaN => NaN
  | PosInf => if Qeq_bool c 0 then NaN else if gt c 0 then PosInf else NegInf
  | NegInf => if Qeq_bool c 0 then NaN else if gt c 0 then NegInf else PosInf
  end.

(** Unary minus. *)
Definition neg (x : num) : num :=
  match x with
  | Finite q => Finite (- q)
  | PosInf => NegInf
  | NegInf => PosInf
  | NaN => NaN
  end.

(** [x === y] on numbers: [NaN] equals nothing. *)
Definition eq (x y : num) : Prop :=
  match x, y with
  | Finite p, Finite q => p == q
  | PosInf, PosInf => True
  | NegInf, NegInf => True
  | _, _ => False
  end.

Definition isFinite (x : num) : bool :=
  match x with Finite _ => true | _ => false end.

(** [String(z)] / [z.toString()] for an integer. *)
Definition string_of_Z (z : Z) : string := NilZero.string_of_int (Z.to_int z).

Fixpoint repeat_char (c : ascii) (n : nat) : string :=
  match n with
  | O => EmptyString
  | S k => String c (repeat_char c k)
  end.

(** [s.padStart(target, fill)] with a one-character [fill]. *)
Definition padStart (target : nat) (fill : ascii) (s : string) : string :=
  (repeat_char fill (target - String.length s) ++ s)%string.

(** The integer nearest to [|x| * 10^d], the larger one on a tie. *)
Definition nearest (x : Q) (d : nat) : Z :=
  Qfloor (Qabs x * inject_Z (10 ^ Z.of_nat d) + (1 # 2)).

(** [x.toFixed(d)]: the sign, then [nearest x d] written with [d] digits
    after the point.  The digits are those of the exact [x]: where the
    program's double lies on the other side of a decimal tie, its last digit
    is the neighbour.  (The switch to exponent notation at [1e21] is outside
    the model.) *)
Definition toFixed (x : Q) (d : nat) : string :=
  let sgn := if lt x 0 then "-"%string else EmptyString in
  let m := padStart (S d) "0"%char (string_of_Z (nearest x d)) in
  let k := String.length m in
  (sgn ++
   (if Nat.eqb d 0 then m
    else substring 0 (k - d) m ++ "." ++ substring (k - d) d m))%string.

(** [toFixed] of a quotient that may not be finite. *)
Definition toFixed_num (x : num) (d : nat) : string :=
  match x with
  | Finite q => toFixed q d
  | PosInf => "Infinity"%string
  | NegInf => "-Infinity"%string
  | NaN => "NaN"%string
  end.

(** Truthiness of an optional string prop: [undefined] and the empty
    string are falsy. *)
Definition truthy (s : option string) : bool :=
  match s with
  | Some EmptyString => false
  | Some _ => true
  | None => false
  end.

Definition str (s : option string) : string :=
  match s with Some v => v | None => "undefined"%string end.

(** What [new Date()] is read for. *)
Record Date : Type := mkDate {
  getFullYear : Z;
  getMonth : Z;   (* 0 .. 11 *)
  getDate : Z
}.

(** The errors a run can raise. *)
Inductive error : Type := TypeError.

Inductive result (A : Type) : Type :=
| Returned (a : A)
| Thrown (e : error).

Arguments Returned {A} a.
Arguments Thrown {A} e.

End JS.


(** ** The axis computation in binary64 *)

Module Binary64.

Import PrimFloat.
#[local] Set Warnings "-inexact-float".
Local Open Scope float_scope.

(** [Math.max] of two numbers: [NaN] if either is, the greater otherwise,
    and [+0] rather than [-0]. *)
Definition max2 (a b : float) : float :=
  if (is_nan a || is_nan b)%bool then nan
  else if a <? b then b
  else if b <? a then a
  else if get_sign a then b else a.

(** [Math.max(...args, last)]. *)
Definition Math_max (args : list float) (last : float) : float :=
  fold_right max2 last args.

(** The two fields of a sample that the axes are computed from. *)
Record Sample : Type := mkSample {
  price : float;
  avg_price : float
}.

Definition prices (data : list Sample) : list float := map price data.
Definition avgPrices (data : list Sample) : list float := map avg_price data.

Definition maxDev (data : list Sample) (preClose : float) : float :=
  Math_max
    (map (fun p => abs (p - preClose)) (prices data) ++
     map (fun p => abs (p - preClose)) (avgPrices data))
    (preClose * 0.005).

Definition yMin (data : list Sample) (preClose : float) : float :=
  preClose - maxDev data preClose * 1.1.

Definition yMax (data : list Sample) (preClose : float) : float :=
  preClose + maxDev data preClose * 1.1.

Definition maxChangePct (data : list Sample) (preClose : float) : float :=
  (maxDev data preClose / preClose) * 100 * 1.1.

(** The two sides of the equalities between the axes, as the program's
    numbers: how far the price axis reaches above and below the previous
    close, and its upper reach as a percentage. *)
Definition reach_above (data : list Sample) (preClose : float) : float :=
  yMax data preClose - preClose.

Definition reach_below (data : list Sample) (preClose : float) : float :=
  preClose - yMin data preClose.

Definition reach_above_pct (data : list Sample) (preClose : float) : float :=
  (yMax data preClose - preClose) / preClose * 100.

(** A flat minute at a previous close of 8.00, and the three minutes around
    a previous close of 10.00. *)
Definition flat_at_8 : list Sample := [mkSample 8 8].
Definition close_8 : float := 8.
Definition session : list Sample :=
  [mkSample 10 10; mkSample 10.05 10.02; mkSample 9.98 10.01].
Definition close_10 : float := 10.

End Binary64.

(** ** Props and derived series *)

(** [interface TimeSeriesData].  [volume] is a count of shares: the model
    types it as an integer, so that [toString] is its decimal numeral. *)
Record TimeSeriesData : Type := mkData {
  time : string;
  price : Q;
  volume : Z;
  avg_price : Q
}.

Definition times (data : list TimeSeriesData) : list string := map time data.
Definition prices (data : list TimeSeriesData) : list Q := map price data.
Definition avgPrices (data : list TimeSeriesData) : list Q := map avg_price data.
Definition volumes (data : list TimeSeriesData) : list Z := map volume data.

(** [arr.map((x, idx) => f(x, idx))]. *)
Fixpoint mapi_from {A B : Type} (f : A -> nat -> B) (idx : nat) (l : list A) : list B :=
  match l with
  | [] => []
  | x :: rest => f x idx :: mapi_from f (S idx) rest
  end.

Definition mapi {A B : Type} (f : A -> nat -> B) (l : list A) : list B :=
  mapi_from f 0 l.

(** [a >= b] where either side may be [undefined] (an index out of range):
    the comparison is then false. *)
Definition ge_undef (a b : option Q) : bool :=
  match a, b with
  | Some x, Some y => JS.ge x y
  | _, _ => false
  end.

(** ** Symmetric axes around the previous close *)

Definition maxDev (data : list TimeSeriesData) (preClose : Q) : Q :=
  JS.Math_max
    (map (fun p => Qabs (p - preClose)) (prices data) ++
     map (fun p => Qabs (p - preClose)) (avgPrices data))
    (preClose * 0.005).

Definition yMin (data : list TimeSeriesData) (preClose : Q) : Q :=
  preClose - maxDev data preClose * 1.1.

Definition yMax (data : list TimeSeriesData) (preClose : Q) : Q :=
  preClose + maxDev data preClose * 1.1.

Definition maxChangePct (data : list TimeSeriesData) (preClose : Q) : JS.num :=
  JS.mul (JS.mul (JS.div (maxDev data preClose) preClose) 100) 1.1.

(** ** Latest sample *)

Definition latestPrice (data : list TimeSeriesData) : option Q :=
  nth_error (prices data) (List.length (prices data) - 1).

Definition latestVolume (data : list TimeSeriesData) : option Z :=
  nth_error (volumes data) (List.length (volumes data) - 1).

(** ** Colours *)

Definition RED_BAR : string := "rgba(220, 38, 38, 0.7)".
Definition GREEN_BAR : string := "rgba(22, 163, 74, 0.7)".
Definition RED : string := "#dc2626".
Definition GREEN : string := "#16a34a".
Definition GREY : string := "#64748b".

(** Volume colours: the price of a minute against the price of the minute
    before it; the first minute against the previous close. *)
Definition volumeColors (data : list TimeSeriesData) (preClose : Q) : list string :=
  mapi (fun (_vol : Z) (idx : nat) =>
          if Nat.eqb idx 0 then
            (if ge_undef (nth_error (prices data) idx) (Some preClose)
             then RED_BAR else GREEN_BAR)
          else
            (if ge_undef (nth_error (prices data) idx)
                         (nth_error (prices data) (idx - 1))
             then RED_BAR else GREEN_BAR))
       (volumes data).

(** ** Axis labels *)

(** [xAxis[0].axisLabel.formatter]: only the key times are labelled. *)
Definition xAxisLabelFormatter (value : string) : string :=
  if (String.eqb value "09:30" || String.eqb value "10:30" ||
      String.eqb value "11:30" || String.eqb value "13:00" ||
      String.eqb value "14:00" || String.eqb value "15:00")%bool
  then
    if String.eqb value "11:30" then "11:30/13:00"
    else if String.eqb value "13:00" then EmptyString
    else value
  else EmptyString.

(** [yAxis[0].axisLabel.color]: above the previous close red, below green. *)
Definition priceAxisLabelColor (preClose : Q) (v : Q) : string :=
  if JS.gt v (preClose + 0.001) then RED
  else if JS.lt v (preClose - 0.001) then GREEN
  else GREY.

Definition priceAxisLabelFormatter (value : Q) : string := JS.toFixed value 2.

(** [yAxis[1].axisLabel.color]: positive red, negative green. *)
Definition pctAxisLabelColor (v : Q) : string :=
  if JS.gt v 0.001 then RED
  else if JS.lt v (- 0.001) then GREEN
  else GREY.

Definition pctAxisLabelFormatter (value : Q) : string :=
  ((if JS.ge value 0 then "+" else EmptyString) ++ JS.toFixed value 2 ++ "%")%string.

(** [yAxis[2].axisLabel.formatter]. *)
Definition volumeAxisLabelFormatter (value : Z) : string :=
  if (10000 <=? value)%Z then (JS.toFixed (inject_Z value / 10000) 1 ++ "万")%string
  else if (1000 <=? value)%Z then (JS.toFixed (inject_Z value / 1000) 1 ++ "千")%string
  else JS.string_of_Z value.

(** ** Tooltip *)

(** One entry of the [params] array handed to the tooltip formatter: the
    series it belongs to, by name, with the value of that series at the
    hovered position.  The price and average series carry numbers, the
    volume series carries a share count. *)
Inductive SeriesValue : Type :=
| PriceSeries (value : Q)        (* seriesName === '价格' *)
| AvgSeries (value : Q)          (* seriesName === '均价' *)
| VolumeSeries (value : Z)       (* seriesName === '成交量' *)
| OtherSeries (seriesName : string).

Record TooltipParam : Type := mkParam {
  axisValue : string;
  series : SeriesValue
}.

(** The tooltip as rows: the bold header, then one [<div>] per row with its
    label, the colour of its value (when one is set) and its text. *)
Inductive TooltipLine : Type :=
| HeaderLine (text : string)
| RowLine (label : string) (color : option string) (text : string).

Definition dateStr (today : JS.Date) : string :=
  (JS.string_of_Z (JS.getFullYear today) ++ "-" ++
   JS.padStart 2 "0"%char (JS.string_of_Z (JS.getMonth today + 1)) ++ "-" ++
   JS.padStart 2 "0"%char (JS.string_of_Z (JS.getDate today)))%string.

Definition plus_sign (change : Q) : string :=
  if JS.ge change 0 then "+" else EmptyString.

(** The volume of the tooltip. *)
Definition tooltipVolStr (vol : Z) : string :=
  if (10000 <=? vol)%Z then (JS.toFixed (inject_Z vol / 10000) 2 ++ "万")%string
  else JS.string_of_Z vol.

(** The rows one entry of [params] adds. *)
Definition tooltipRows (preClose : Q) (item : TooltipParam) : list TooltipLine :=
  match series item with
  | PriceSeries price =>
      let change := price - preClose in
      let changePct := JS.toFixed_num (JS.mul (JS.div change preClose) 100) 2 in
      let color := if JS.ge change 0 then RED else GREEN in
      [ RowLine "价格" (Some color) (JS.toFixed price 2);
        RowLine "涨跌" (Some color)
          (plus_sign change ++ JS.toFixed change 2 ++
           " (" ++ plus_sign change ++ changePct ++ "%)")%string ]
  | AvgSeries value => [ RowLine "均价" (Some "#d97706"%string) (JS.toFixed value 2) ]
  | VolumeSeries vol => [ RowLine "成交量" None (tooltipVolStr vol) ]
  | OtherSeries _ => []
  end.

(** [tooltip.formatter].  [today] is what [new Date()] returns when the
    formatter runs; an empty [params] gives the empty string, here no line. *)
Definition tooltipFormatter (preClose : Q) (today : JS.Date)
    (params : list TooltipParam) : list TooltipLine :=
  match params with
  | [] => []
  | first :: _ =>
      HeaderLine (dateStr today ++ " " ++ axisValue first)%string ::
      flat_map (tooltipRows preClose) params
  end.

(** ** Header texts *)

Record GraphicText : Type := mkGraphic {
  left : Z;
  top : Z;
  text : string;
  fill : string
}.

(** [graphic]: nothing without a stock name; with one, the name and the
    latest figures.  [latestPrice.toFixed] raises a [TypeError] when there is
    no latest sample. *)
Definition graphic (data : list TimeSeriesData) (preClose : Q)
    (stockName stockCode : option string) : JS.result (list GraphicText) :=
  if JS.truthy stockName then
    match latestPrice data, latestVolume data with
    | Some lastPrice, Some lastVolume =>
        let latestChange := lastPrice - preClose in
        let latestChangePct :=
          JS.toFixed_num (JS.mul (JS.div latestChange preClose) 100) 2 in
        JS.Returned
          [ mkGraphic 70 8
              (JS.str stockName ++
               (if JS.truthy stockCode then " [" ++ JS.str stockCode ++ "]"
                else EmptyString))%string
              GREY;
            mkGraphic 250 8
              ("价格:" ++ JS.toFixed lastPrice 2 ++
               "  涨幅:" ++ plus_sign latestChange ++ latestChangePct ++
               "%  成交量:" ++ JS.string_of_Z lastVolume)%string
              (if JS.ge latestChange 0 then RED else GREEN) ]
    | _, _ => JS.Thrown JS.TypeError
    end
  else JS.Returned [].

(** ** The chart option *)

(** One bar of the volume series. *)
Record BarItem : Type := mkBar {
  bar_value : Z;
  itemStyle_color : option string
}.

(** [echarts.EChartsOption], computed fields only. *)
Record EChartsOption : Type := mkOption {
  option_graphic : list GraphicText;
  tooltip_formatter : JS.Date -> list TooltipParam -> list TooltipLine;
  grid_top : Z;
  xAxis_data : list string;
  xAxis_label_formatter : string -> string;
  priceAxis_min : Q;
  priceAxis_max : Q;
  priceAxis_label_color : Q -> string;
  priceAxis_label_formatter : Q -> string;
  pctAxis_min : JS.num;
  pctAxis_max : JS.num;
  pctAxis_label_color : Q -> string;
  pctAxis_label_formatter : Q -> string;
  volumeAxis_label_formatter : Z -> string;
  series_price_data : list Q;
  markLine_yAxis : Q;
  series_avg_data : list Q;
  series_volume_data : list BarItem
}.

(** The data of the volume series: every volume with the colour of its
    index. *)
Definition volumeBars (data : list TimeSeriesData) (preClose : Q) : list BarItem :=
  mapi (fun (vol : Z) (idx : nat) =>
          mkBar vol (nth_error (volumeColors data preClose) idx))
       (volumes data).

(** The body of the effect after its guard: everything from [times] to the
    [option] literal. *)
Definition buildOption (data : list TimeSeriesData) (preClose : Q)
    (stockName stockCode : option string) : JS.result EChartsOption :=
  match graphic data preClose stockName stockCode with
  | JS.Thrown e => JS.Thrown e
  | JS.Returned texts =>
      JS.Returned
        {| option_graphic := texts;
           tooltip_formatter := tooltipFormatter preClose;
           grid_top := if JS.truthy stockName then 30 else 15;
           xAxis_data := times data;
           xAxis_label_formatter := xAxisLabelFormatter;
           priceAxis_min := yMin data preClose;
           priceAxis_max := yMax data preClose;
           priceAxis_label_color := priceAxisLabelColor preClose;
           priceAxis_label_formatter := priceAxisLabelFormatter;
           pctAxis_min := JS.neg (maxChangePct data preClose);
           pctAxis_max := maxChangePct data preClose;
           pctAxis_label_color := pctAxisLabelColor;
           pctAxis_label_formatter := pctAxisLabelFormatter;
           volumeAxis_label_formatter := volumeAxisLabelFormatter;
           series_price_data := prices data;
           markLine_yAxis := preClose;
           series_avg_data := avgPrices data;
           series_volume_data := volumeBars data preClose |}
  end.

(** ** The effect and the render *)

(** [useEffect]: [mounted] tells whether [chartContainerRef.current] is
    set.  Without a container or without data the effect returns at once and
    no option reaches the chart ([None]); otherwise the option built is
    handed to [chart.setOption]. *)
Definition useEffect (mounted : bool) (data : list TimeSeriesData) (preClose : Q)
    (stockName stockCode : option string) : JS.result (option EChartsOption) :=
  if (negb mounted || Nat.eqb (List.length data) 0)%bool then JS.Returned None
  else
    match buildOption data preClose stockName stockCode with
    | JS.Thrown e => JS.Thrown e
    | JS.Returned option => JS.Returned (Some option)
    end.

(** What the component renders below its legend. *)
Inductive View : Type :=
| ChartContainer
| EmptyState (message : string).

Definition render (data : list TimeSeriesData) : View :=
  if (0 <? List.length data)%nat then ChartContainer
  else EmptyState "暂无分时数据".

(** ** The vocabulary of the specification *)

(** The component has no type of classifications: what it computes is a
    colour.  A direction is read off that colour. *)

(** Direction of a value against what it is compared with. *)
Inductive Direction : Type := Above | Below | Equal.

(** Red means up, green means down, grey means level. *)
Definition directionOfColor (c : string) : option Direction :=
  if (String.eqb c RED || String.eqb c RED_BAR)%bool then Some Above
  else if (String.eqb c GREEN || String.eqb c GREEN_BAR)%bool then Some Below
  else if String.eqb c GREY then Some Equal
  else None.

(** The colour the component gives a price against the previous close:
    the colour of the rows of the price series in the tooltip (the header
    colours the latest price by the same test). *)
Definition priceColor (preClose : Q) (price : Q) : option string :=
  match tooltipRows preClose (mkParam EmptyString (PriceSeries price)) with
  | RowLine _ color _ :: _ => color
  | _ => None
  end.

(** [vsReference] of a sample: that colour, read as a direction. *)
Definition vsReference (preClose : Q) (price : Q) : option Direction :=
  match priceColor preClose price with
  | Some c => directionOfColor c
  | None => None
  end.

(** [vsPrevious] of sample [i]: the colour of its volume bar, read as a
    direction. *)
Definition vsPrevious (data : list TimeSeriesData) (preClose : Q) (i : nat)
    : option Direction :=
  match nth_error (volumeColors data preClose) i with
  | Some c => directionOfColor c
  | None => None
  end.

(** ** Sample inputs *)

(** A three-minute session around a previous close of 10.00. *)
Definition sample_flat : TimeSeriesData := mkData "09:30" 10 100 10.
Definition sample_up : TimeSeriesData := mkData "09:31" 10.05 12345 10.02.
Definition sample_down : TimeSeriesData := mkData "09:32" 9.98 1500 10.01.
Definition session : list TimeSeriesData := [sample_flat; sample_up; sample_down].

(** ** The notable-trader list ([DragonTigerList.tsx]) *)

Module DragonTiger.

(** A string whose characters the code only counts, cuts and copies: the
    list of its UTF-16 code units. *)
Definition jsstring : Type := list N.

Definition dash : N := 45.   (* '-' *)
Definition dot : N := 46.    (* '.' *)

(** [s.slice(a, b)] for [0 <= a <= b]; the end is clamped to the length. *)
Definition slice {A : Type} (a b : nat) (s : list A) : list A :=
  firstn (b - a) (skipn a s).

(** Amounts in yuan, abbreviated to hundred millions or ten thousands. *)
Definition formatAmount (value : Q) : string :=
  if JS.ge (Qabs value) 100000000 then
    (JS.toFixed (value / 100000000) 2 ++ "亿")%string
  else if JS.ge (Qabs value) 10000 then
    (JS.toFixed (value / 10000) 0 ++ "万")%string
  else JS.toFixed value 0.

(** [YYYYMMDD -> YYYY-MM-DD]; any other length is left alone. *)
Definition formatDate (dateStr : jsstring) : jsstring :=
  if Nat.eqb (List.length dateStr) 8 then
    slice 0 4 dateStr ++ [dash] ++ slice 4 6 dateStr ++ [dash] ++ slice 6 8 dateStr
  else dateStr.

(** [DragonTigerItem], the fields the component reads. *)
Record DragonTigerItem : Type := mkItem {
  ts_code : jsstring;
  trade_date : jsstring;
  pct_change : Q;
  net_amount : Q;
  l_buy : Q;
  reasons : option (list jsstring)
}.

Record Stats : Type := mkStats {
  total : nat;
  netBuy : nat;
  netSell : nat;
  totalNetBuy : Q;
  totalNetSell : Q
}.

(** [arr.reduce((sum, d) => sum + d.net_amount, 0)]. *)
Definition sumNet (l : list DragonTigerItem) : Q :=
  fold_left (fun sum d => sum + net_amount d) l 0.

Definition stats (data : list DragonTigerItem) : Stats :=
  {| total := List.length data;
     netBuy := List.length (filter (fun d => JS.gt (net_amount d) 0) data);
     netSell := List.length (filter (fun d => JS.lt (net_amount d) 0) data);
     totalNetBuy := sumNet (filter (fun d => JS.gt (net_amount d) 0) data);
     totalNetSell := Qabs (sumNet (filter (fun d => JS.lt (net_amount d) 0) data)) |}.

(** The text of one reason badge: at most eight characters, then dots. *)
Definition reasonLabel (reason : jsstring) : jsstring :=
  if (8 <? List.length reason)%nat then slice 0 8 reason ++ [dot; dot; dot]
  else reason.

(** The badges of a row: the first two reasons, and the count of the rest
    when there are more ([+N]).  No reasons, no badges. *)
Record ReasonBadges : Type := mkBadges {
  shown : list jsstring;
  more : option nat
}.

Definition reasonBadges (item : DragonTigerItem) : option ReasonBadges :=
  match reasons item with
  | Some rs =>
      if (0 <? List.length rs)%nat then
        Some {| shown := map reasonLabel (slice 0 2 rs);
                more := if (2 <? List.length rs)%nat
                        then Some (List.length rs - 2)%nat else None |}
      else None
  | None => None
  end.

End DragonTiger.

(** ** The sector heat panel ([SectorHeat]) *)

Module SectorHeat.

Definition getHeatColor (value : Q) : string :=
  if JS.ge value 5 then "bg-[#dc2626]"
  else if JS.ge value 4 then "bg-[#ef4444]"
  else if JS.ge value 3 then "bg-[#f87171]"
  else if JS.ge value 2 then "bg-[#fca5a5]"
  else if JS.ge value 1 then "bg-[#fecaca]"
  else if JS.ge value 0 then "bg-slate-300"
  else if JS.ge value (- 1) then "bg-[#bbf7d0]"
  else if JS.ge value (- 2) then "bg-[#86efac]"
  else if JS.ge value (- 3) then "bg-[#4ade80]"
  else "bg-[#22c55e]".

Definition getTextColor (value : Q) : string :=
  if (JS.ge value 2 || JS.ge (- 2) value)%bool then "text-white"
  else if JS.ge value 0 then "text-red-900" else "text-green-900".

(** [SectorHotData], the fields the panel reads. *)
Record SectorHotData : Type := mkSector {
  ts_code : string;
  ts_name : string;
  pct_change : Q;
  hot : Q
}.

(** [arr.sort(compare)]: the sort is stable, so for a comparator that is an
    order its result is the one of any stable sort; this one inserts every
    element, from the last to the first, before the first element it does
    not have to follow. *)
Fixpoint insert {A : Type} (compare : A -> A -> Q) (x : A) (sorted : list A) : list A :=
  match sorted with
  | [] => [x]
  | y :: rest =>
      if Qle_bool (compare x y) 0 then x :: y :: rest
      else y :: insert compare x rest
  end.

Definition sort {A : Type} (compare : A -> A -> Q) (l : list A) : list A :=
  fold_right (insert compare) [] l.

(** The rise board: the sectors that rose, the strongest first, eight at
    most. *)
Definition risers (hotList : list SectorHotData) : list SectorHotData :=
  firstn 8
    (sort (fun a b => pct_change b - pct_change a)
          (filter (fun s => JS.gt (pct_change s) 0) hotList)).

(** The fall board: the sectors that fell, the deepest fall first, eight at
    most. *)
Definition fallers (hotList : list SectorHotData) : list SectorHotData :=
  firstn 8
    (sort (fun a b => pct_change a - pct_change b)
          (filter (fun s => JS.lt (pct_change s) 0) hotList)).

(** Whether a board shows its empty message instead of rows. *)
Definition noRisers (hotList : list SectorHotData) : bool :=
  Nat.eqb (List.length (filter (fun s => JS.gt (pct_change s) 0) hotList)) 0.

Definition noFallers (hotList : list SectorHotData) : bool :=
  Nat.eqb (List.length (filter (fun s => JS.lt (pct_change s) 0) hotList)) 0.

End SectorHeat.

(** * Properties *)

(** ** Comparisons *)

Lemma ge_true_iff (a b : Q) : JS.ge a b = true <-> b <= a.
Proof. unfold JS.ge. apply Qle_bool_iff. Qed.

Lemma gt_true_iff (a b : Q) : JS.gt a b = true <-> b < a.
Proof.
  unfold JS.gt. rewrite negb_true_iff.
  destruct (Qle_bool a b) eqn:E.
  - apply Qle_bool_iff in E. split; [discriminate | intro H; exfalso; lra].
  - split; [intros _ | reflexivity].
    apply Qnot_le_lt. intro H. apply Qle_bool_iff in H. congruence.
Qed.

Lemma lt_true_iff (a b : Q) : JS.lt a b = true <-> a < b.
Proof. unfold JS.lt. apply (gt_true_iff b a). Qed.

Lemma ge_false_iff (a b : Q) : JS.ge a b = false <-> a < b.
Proof.
  rewrite <- not_true_iff_false, ge_true_iff. split; intro H; lra.
Qed.

(** ** [Math.max] *)

Lemma Math_max_ge_last (args : list Q) (last : Q) : last <= JS.Math_max args last.
Proof.
  induction args as [|x rest IH]; simpl.
  - lra.
  - pose proof (Q.le_max_r x (JS.Math_max rest last)). lra.
Qed.

Lemma Math_max_ge_arg (args : list Q) (last x : Q) :
  In x args -> x <= JS.Math_max args last.
Proof.
  induction args as [|y rest IH]; simpl; intros Hin.
  - contradiction.
  - destruct Hin as [-> | Hin].
    + apply Q.le_max_l.
    + pose proof (Q.le_max_r y (JS.Math_max rest last)). specialize (IH Hin). lra.
Qed.

Lemma Math_max_attained (args : list Q) (last : Q) :
  JS.Math_max args last == last \/
  exists x, In x args /\ JS.Math_max args last == x.
Proof.
  induction args as [|y rest IH]; simpl.
  - left. reflexivity.
  - destruct (Q.max_spec y (JS.Math_max rest last)) as [[_ E] | [_ E]].
    + destruct IH as [IH | [x [Hin IH]]].
      * left. rewrite E. exact IH.
      * right. exists x. split; [right; exact Hin | rewrite E; exact IH].
    + right. exists y. split; [left; reflexivity | exact E].
Qed.

Lemma Math_max_lub (args : list Q) (last bound : Q) :
  last <= bound -> (forall x, In x args -> x <= bound) ->
  JS.Math_max args last <= bound.
Proof.
  intros Hlast. induction args as [|y rest IH]; simpl; intros Hargs.
  - exact Hlast.
  - apply Q.max_lub.
    + apply Hargs. left. reflexivity.
    + apply IH. intros x Hx. apply Hargs. right. exact Hx.
Qed.

(** ** The deviation *)

Lemma maxDev_ge_price (data : list TimeSeriesData) (preClose : Q) (s : TimeSeriesData) :
  In s data -> Qabs (price s - preClose) <= maxDev data preClose.
Proof.
  intros Hin. unfold maxDev. apply Math_max_ge_arg.
  apply in_or_app. left. unfold prices. rewrite map_map.
  apply (in_map (fun x => Qabs (price x - preClose))). exact Hin.
Qed.

Lemma maxDev_ge_avg (data : list TimeSeriesData) (preClose : Q) (s : TimeSeriesData) :
  In s data -> Qabs (avg_price s - preClose) <= maxDev data preClose.
Proof.
  intros Hin. unfold maxDev. apply Math_max_ge_arg.
  apply in_or_app. right. unfold avgPrices. rewrite map_map.
  apply (in_map (fun x => Qabs (avg_price x - preClose))). exact Hin.
Qed.

Lemma maxDev_ge_floor (data : list TimeSeriesData) (preClose : Q) :
  preClose * 0.005 <= maxDev data preClose.
Proof. unfold maxDev. apply Math_max_ge_last. Qed.

Lemma maxDev_attained (data : list TimeSeriesData) (preClose : Q) :
  maxDev data preClose == preClose * 0.005 \/
  exists s, In s data /\
    (maxDev data preClose == Qabs (price s - preClose) \/
     maxDev data preClose == Qabs (avg_price s - preClose)).
Proof.
  unfold maxDev.
  destruct (Math_max_attained
              (map (fun p => Qabs (p - preClose)) (prices data) ++
               map (fun p => Qabs (p - preClose)) (avgPrices data))
              (preClose * 0.005)) as [E | [x [Hin E]]].
  - left. exact E.
  - right. apply in_app_or in Hin. destruct Hin as [Hin | Hin].
    + unfold prices in Hin. rewrite map_map in Hin. apply in_map_iff in Hin.
      destruct Hin as [s [Hs Hin]]. exists s. split; [exact Hin |].
      left. rewrite E, <- Hs. reflexivity.
    + unfold avgPrices in Hin. rewrite map_map in Hin. apply in_map_iff in Hin.
      destruct Hin as [s [Hs Hin]]. exists s. split; [exact Hin |].
      right. rewrite E, <- Hs. reflexivity.
Qed.

Lemma maxDev_nonneg (data : list TimeSeriesData) (preClose : Q) :
  data <> [] -> 0 <= maxDev data preClose.
Proof.
  destruct data as [|s rest]; [congruence | intros _].
  pose proof (maxDev_ge_price (s :: rest) preClose s (or_introl Logic.eq_refl)).
  pose proof (Qabs_nonneg (price s - preClose)). lra.
Qed.

(** ** The effect runs on every non-empty series *)

Lemma last_index_defined {A : Type} (l : list A) :
  l <> [] -> exists x, nth_error l (List.length l - 1) = Some x.
Proof.
  intros Hne. destruct (nth_error l (List.length l - 1)) as [x|] eqn:E.
  - exists x. reflexivity.
  - apply nth_error_None in E. destruct l as [|y rest]; [congruence |].
    simpl in E. lia.
Qed.

Lemma graphic_returns (data : list TimeSeriesData) (preClose : Q)
    (stockName stockCode : option string) :
  data <> [] ->
  exists texts, graphic data preClose stockName stockCode = JS.Returned texts.
Proof.
  intros Hne. unfold graphic, latestPrice, latestVolume.
  destruct (JS.truthy stockName); [| eexists; reflexivity].
  destruct (last_index_defined (prices data)) as [p Hp].
  { unfold prices. destruct data; [congruence | discriminate]. }
  destruct (last_index_defined (volumes data)) as [v Hv].
  { unfold volumes. destruct data; [congruence | discriminate]. }
  rewrite Hp, Hv. eexists. reflexivity.
Qed.

(** The option that reaches the chart, field by field. *)
Lemma useEffect_runs (data : list TimeSeriesData) (preClose : Q)
    (stockName stockCode : option string) :
  data <> [] ->
  exists o,
    useEffect true data preClose stockName stockCode = JS.Returned (Some o) /\
    graphic data preClose stockName stockCode = JS.Returned (option_graphic o) /\
    priceAxis_min o = yMin data preClose /\
    priceAxis_max o = yMax data preClose /\
    pctAxis_min o = JS.neg (maxChangePct data preClose) /\
    pctAxis_max o = maxChangePct data preClose /\
    tooltip_formatter o = tooltipFormatter preClose /\
    priceAxis_label_color o = priceAxisLabelColor preClose /\
    volumeAxis_label_formatter o = volumeAxisLabelFormatter /\
    series_price_data o = prices data /\
    series_avg_data o = avgPrices data /\
    series_volume_data o = volumeBars data preClose.
Proof.
  intros Hne.
  destruct (graphic_returns data preClose stockName stockCode Hne) as [texts Hg].
  unfold useEffect, buildOption. rewrite Hg.
  destruct data as [|s rest]; [congruence |]. simpl negb. simpl orb.
  cbv iota. eexists. split; [reflexivity |]. simpl.
  repeat split; reflexivity.
Qed.

Lemma maxChangePct_finite (data : list TimeSeriesData) (preClose : Q) :
  ~ preClose == 0 ->
  maxChangePct data preClose =
  JS.Finite (maxDev data preClose / preClose * 100 * 1.1).
Proof.
  intros Hnz. unfold maxChangePct, JS.div.
  destruct (Qeq_bool preClose 0) eqn:E.
  - apply Qeq_bool_iff in E. contradiction.
  - reflexivity.
Qed.

(** ** Axis domains *)

(** With a flat minute at 8.00 and a previous close of 8.00, the price
    axis of the program reaches further above the previous close than below
    it (0.044000000000000483 against 0.043999999999999595).  With the three
    minutes around 10.00, the percentage maximum is smaller than the upper
    reach of the price axis taken as a percentage (0.55000000000000782
    against 0.55000000000001492).  This refutes C1 as stated (a symmetry and
    a lock that hold exactly). *)
Lemma rounding_breaks_exact_symmetry :
  PrimFloat.ltb (Binary64.reach_below Binary64.flat_at_8 Binary64.close_8)
                (Binary64.reach_above Binary64.flat_at_8 Binary64.close_8) = true /\
  PrimFloat.eqb (Binary64.reach_above Binary64.flat_at_8 Binary64.close_8)
                (Binary64.reach_below Binary64.flat_at_8 Binary64.close_8) = false /\
  PrimFloat.ltb (Binary64.maxChangePct Binary64.session Binary64.close_10)
                (Binary64.reach_above_pct Binary64.session Binary64.close_10) = true /\
  PrimFloat.eqb (Binary64.maxChangePct Binary64.session Binary64.close_10)
                (Binary64.reach_above_pct Binary64.session Binary64.close_10) = false.
Proof.
  repeat split; vm_compute; reflexivity.
Qed.

(** C1, amended.  For every non-empty series and every previous close above
    zero, both axes are built from one deviation: the price axis ends at
    the previous close minus and plus [maxDev * 1.1], a half-width above
    zero, so the previous close lies strictly inside it; the percentage
    axis ends at minus and plus [maxDev / preClose * 100 * 1.1], a maximum
    above zero, so its minimum is exactly the opposite of its maximum. *)
Theorem domains_built_from_one_deviation
    (data : list TimeSeriesData) (preClose : Q) (stockName stockCode : option string) :
  data <> [] -> 0 < preClose ->
  exists o pct,
    useEffect true data preClose stockName stockCode = JS.Returned (Some o) /\
    priceAxis_min o == preClose - maxDev data preClose * 1.1 /\
    priceAxis_max o == preClose + maxDev data preClose * 1.1 /\
    0 < maxDev data preClose * 1.1 /\
    priceAxis_min o < preClose < priceAxis_max o /\
    pctAxis_max o = JS.Finite pct /\
    pctAxis_min o = JS.Finite (- pct) /\
    JS.eq (pctAxis_max o) (JS.neg (pctAxis_min o)) /\
    pct == maxDev data preClose / preClose * 100 * 1.1 /\
    0 < pct.
Proof.
  intros Hne Hpos.
  destruct (useEffect_runs data preClose stockName stockCode Hne)
    as [o [Hrun [_ [Hmin [Hmax [Hpmin [Hpmax _]]]]]]].
  assert (Hnz : ~ preClose == 0) by (intro E; rewrite E in Hpos; lra).
  pose proof (maxDev_ge_floor data preClose) as Hfloor.
  assert (Hdev : 0 < maxDev data preClose) by lra.
  exists o, (maxDev data preClose / preClose * 100 * 1.1).
  split; [exact Hrun |].
  rewrite Hmin, Hmax, Hpmin, Hpmax, (maxChangePct_finite data preClose Hnz).
  unfold yMin, yMax. cbn [JS.neg JS.eq].
  split; [reflexivity | split; [reflexivity |]].
  split; [lra |]. split; [split; lra |].
  split; [reflexivity | split; [reflexivity |]].
  split; [ring | split; [reflexivity |]].
  assert (Hinv : 0 < / preClose) by (apply Qinv_lt_0_compat; exact Hpos).
  unfold Qdiv. generalize dependent (/ preClose). intros r Hr.
  generalize dependent (maxDev data preClose). intros m _ Hm. nra.
Qed.

Lemma domains_built_from_one_deviation_witness :
  exists o pct,
    useEffect true session 10 None None = JS.Returned (Some o) /\
    priceAxis_min o == 10 - maxDev session 10 * 1.1 /\
    priceAxis_max o == 10 + maxDev session 10 * 1.1 /\
    0 < maxDev session 10 * 1.1 /\
    priceAxis_min o < 10 < priceAxis_max o /\
    pctAxis_max o = JS.Finite pct /\
    pctAxis_min o = JS.Finite (- pct) /\
    JS.eq (pctAxis_max o) (JS.neg (pctAxis_min o)) /\
    pct == maxDev session 10 / 10 * 100 * 1.1 /\
    0 < pct.
Proof.
  apply (domains_built_from_one_deviation session 10 None None).
  - discriminate.
  - reflexivity.
Defined.

(** C2.  For every non-empty series and every previous close above zero,
    [maxDev] is the greatest of the deviations of all prices and average
    prices from the previous close and of the floor [preClose * 0.005]: it
    bounds each of them and is one of them.  On a flat series it is the
    floor, and the price axis handed to the chart is never of zero width. *)
Theorem maxDev_is_floored_maximum
    (data : list TimeSeriesData) (preClose : Q) (stockName stockCode : option string) :
  data <> [] -> 0 < preClose ->
  (forall s, In s data ->
     Qabs (price s - preClose) <= maxDev data preClose /\
     Qabs (avg_price s - preClose) <= maxDev data preClose) /\
  preClose * 0.005 <= maxDev data preClose /\
  (maxDev data preClose == preClose * 0.005 \/
   exists s, In s data /\
     (maxDev data preClose == Qabs (price s - preClose) \/
      maxDev data preClose == Qabs (avg_price s - preClose))) /\
  ((forall s, In s data -> price s == preClose /\ avg_price s == preClose) ->
   maxDev data preClose == preClose * 0.005) /\
  exists o,
    useEffect true data preClose stockName stockCode = JS.Returned (Some o) /\
    priceAxis_min o == preClose - maxDev data preClose * 1.1 /\
    priceAxis_max o == preClose + maxDev data preClose * 1.1 /\
    priceAxis_min o < priceAxis_max o.
Proof.
  intros Hne Hpos.
  pose proof (maxDev_ge_floor data preClose) as Hfloor.
  split; [| split; [| split; [| split]]].
  - intros s Hin. split; [apply maxDev_ge_price | apply maxDev_ge_avg]; exact Hin.
  - exact Hfloor.
  - apply maxDev_attained.
  - intros Hflat. apply Qle_antisym; [| exact Hfloor].
    unfold maxDev. apply Math_max_lub; [lra |].
    intros x Hx. apply in_app_or in Hx.
    assert (Hzero : forall s, In s data ->
              Qabs (price s - preClose) <= preClose * 0.005 /\
              Qabs (avg_price s - preClose) <= preClose * 0.005).
    { intros s Hin. destruct (Hflat s Hin) as [Hp Ha].
      assert (E1 : price s - preClose == 0) by (rewrite Hp; ring).
      assert (E2 : avg_price s - preClose == 0) by (rewrite Ha; ring).
      rewrite (Qabs_wd _ _ E1), (Qabs_wd _ _ E2). simpl Qabs. split; lra. }
    destruct Hx as [Hx | Hx].
    + unfold prices in Hx. rewrite map_map in Hx. apply in_map_iff in Hx.
      destruct Hx as [s [<- Hin]]. apply (Hzero s Hin).
    + unfold avgPrices in Hx. rewrite map_map in Hx. apply in_map_iff in Hx.
      destruct Hx as [s [<- Hin]]. apply (Hzero s Hin).
  - destruct (useEffect_runs data preClose stockName stockCode Hne)
      as [o [Hrun [_ [Hmin [Hmax _]]]]].
    exists o. split; [exact Hrun |].
    rewrite Hmin, Hmax. unfold yMin, yMax.
    split; [reflexivity | split; [reflexivity | lra]].
Qed.

Lemma maxDev_is_floored_maximum_witness :
  maxDev [sample_flat] 10 == 10 * 0.005 /\
  exists o,
    useEffect true [sample_flat] 10 None None = JS.Returned (Some o) /\
    priceAxis_min o < priceAxis_max o.
Proof.
  destruct (maxDev_is_floored_maximum [sample_flat] 10 None None)
    as [_ [_ [_ [Hflat [o [Hrun [_ [_ Hwidth]]]]]]]].
  - discriminate.
  - reflexivity.
  - split.
    + apply Hflat. intros s [<- | []]. split; reflexivity.
    + exists o. split; [exact Hrun | exact Hwidth].
Defined.

(** ** A previous close that is not positive *)

(** With a previous close of zero the effect raises nothing: the chart gets
    an option with the price axis from -11 to 11 and an infinite percentage
    axis.  This refutes C3 as stated (an [InvalidReferenceError] and no
    domain for every previous close at or below zero). *)
Lemma zero_reference_still_computes :
  exists o,
    useEffect true [sample_flat] 0 None None = JS.Returned (Some o) /\
    priceAxis_min o == - 11 /\
    priceAxis_max o == 11 /\
    pctAxis_min o = JS.NegInf /\
    pctAxis_max o = JS.PosInf.
Proof.
  eexists. split; [reflexivity |].
  repeat split; reflexivity.
Qed.

(** C3, amended.  The effect has no guard on the previous close and no
    error of its own for it: for every non-empty series and every previous
    close at or below zero it returns an option, with the price axis at
    [preClose -/+ maxDev * 1.1] for a deviation that is not negative, and
    the percentage axis at [-/+ maxChangePct]; [maxChangePct] is the finite
    [maxDev / preClose * 100 * 1.1] below zero and not finite at zero. *)
Theorem nonpositive_reference_is_not_rejected
    (data : list TimeSeriesData) (preClose : Q) (stockName stockCode : option string) :
  data <> [] -> preClose <= 0 ->
  exists o,
    useEffect true data preClose stockName stockCode = JS.Returned (Some o) /\
    0 <= maxDev data preClose /\
    priceAxis_min o == preClose - maxDev data preClose * 1.1 /\
    priceAxis_max o == preClose + maxDev data preClose * 1.1 /\
    pctAxis_min o = JS.neg (pctAxis_max o) /\
    (preClose < 0 ->
     pctAxis_max o = JS.Finite (maxDev data preClose / preClose * 100 * 1.1)) /\
    (preClose == 0 -> JS.isFinite (pctAxis_max o) = false).
Proof.
  intros Hne Hle.
  destruct (useEffect_runs data preClose stockName stockCode Hne)
    as [o [Hrun [_ [Hmin [Hmax [Hpmin [Hpmax _]]]]]]].
  exists o. split; [exact Hrun |].
  split; [apply maxDev_nonneg; exact Hne |].
  rewrite Hmin, Hmax, Hpmin, Hpmax. unfold yMin, yMax.
  split; [reflexivity | split; [reflexivity | split; [reflexivity | split]]].
  - intros Hneg. apply maxChangePct_finite. intro E. rewrite E in Hneg. lra.
  - intros Hzero. unfold maxChangePct, JS.div.
    apply Qeq_bool_iff in Hzero. rewrite Hzero.
    destruct (Qeq_bool (maxDev data preClose) 0); [reflexivity |].
    destruct (JS.gt (maxDev data preClose) 0); reflexivity.
Qed.

Lemma nonpositive_reference_is_not_rejected_witness :
  exists o,
    useEffect true session (- 10) None None = JS.Returned (Some o) /\
    0 <= maxDev session (- 10) /\
    priceAxis_min o == - 10 - maxDev session (- 10) * 1.1 /\
    priceAxis_max o == - 10 + maxDev session (- 10) * 1.1 /\
    pctAxis_min o = JS.neg (pctAxis_max o) /\
    (- 10 < 0 ->
     pctAxis_max o = JS.Finite (maxDev session (- 10) / (- 10) * 100 * 1.1)) /\
    (- 10 == 0 -> JS.isFinite (pctAxis_max o) = false).
Proof.
  apply (nonpositive_reference_is_not_rejected session (- 10) None None).
  - discriminate.
  - discriminate.
Defined.

(** ** Colours of the axis labels *)

Lemma priceAxisLabelColor_cases (preClose v : Q) :
  (preClose + 0.001 < v /\ priceAxisLabelColor preClose v = RED) \/
  (v < preClose - 0.001 /\ priceAxisLabelColor preClose v = GREEN) \/
  (preClose - 0.001 <= v <= preClose + 0.001 /\
   priceAxisLabelColor preClose v = GREY).
Proof.
  unfold priceAxisLabelColor.
  destruct (JS.gt v (preClose + 0.001)) eqn:Egt.
  - left. apply gt_true_iff in Egt. split; [exact Egt | reflexivity].
  - destruct (JS.lt v (preClose - 0.001)) eqn:Elt.
    + right. left. apply lt_true_iff in Elt. split; [exact Elt | reflexivity].
    + right. right. split; [| reflexivity].
      split; apply Qnot_lt_le; intro H.
      * apply lt_true_iff in H. congruence.
      * apply gt_true_iff in H. congruence.
Qed.

(** ** Volume bars *)

Lemma nth_error_mapi_from {A B : Type} (f : A -> nat -> B) (l : list A) :
  forall k i,
    nth_error (mapi_from f k l) i =
    option_map (fun x => f x (k + i)%nat) (nth_error l i).
Proof.
  induction l as [|x rest IH]; intros k i.
  - destruct i; reflexivity.
  - destruct i as [|j]; simpl.
    + rewrite Nat.add_0_r. reflexivity.
    + rewrite IH. replace (S k + j)%nat with (k + S j)%nat by lia. reflexivity.
Qed.

Lemma nth_error_mapi {A B : Type} (f : A -> nat -> B) (l : list A) (i : nat) :
  nth_error (mapi f l) i = option_map (fun x => f x i) (nth_error l i).
Proof. unfold mapi. rewrite nth_error_mapi_from. reflexivity. Qed.

Lemma length_mapi_from {A B : Type} (f : A -> nat -> B) (l : list A) :
  forall k, List.length (mapi_from f k l) = List.length l.
Proof.
  induction l as [|x rest IH]; intros k; simpl; [reflexivity |].
  rewrite IH. reflexivity.
Qed.

(** The colour of the bar of a sample that has a predecessor. *)
Lemma volumeColors_later (data : list TimeSeriesData) (preClose : Q)
    (i : nat) (s prev : TimeSeriesData) :
  (0 < i)%nat ->
  nth_error data i = Some s ->
  nth_error data (i - 1) = Some prev ->
  nth_error (volumeColors data preClose) i =
  Some (if JS.ge (price s) (price prev) then RED_BAR else GREEN_BAR).
Proof.
  intros Hpos Hs Hprev. unfold volumeColors, volumes, prices.
  rewrite nth_error_mapi, !nth_error_map, Hs, Hprev. simpl.
  destruct i as [|j]; [lia |]. reflexivity.
Qed.

(** The colour of the first bar. *)
Lemma volumeColors_first (rest : list TimeSeriesData) (preClose : Q) (s : TimeSeriesData) :
  nth_error (volumeColors (s :: rest) preClose) 0 =
  Some (if JS.ge (price s) preClose then RED_BAR else GREEN_BAR).
Proof. reflexivity. Qed.

(** C5.  For every sample after the first, the volume bar compares its
    price with the price of the sample before it, and a tie counts as up:
    the bar is red (above) exactly when the price is greater than or equal
    to the previous price, and green (below) otherwise. *)
Theorem vsPrevious_tie_counts_as_up
    (data : list TimeSeriesData) (preClose : Q) (i : nat) (s prev : TimeSeriesData) :
  (0 < i)%nat ->
  nth_error data i = Some s ->
  nth_error data (i - 1) = Some prev ->
  (nth_error (volumeColors data preClose) i = Some RED_BAR <->
   price prev <= price s) /\
  (nth_error (volumeColors data preClose) i = Some GREEN_BAR <->
   price s < price prev) /\
  (vsPrevious data preClose i = Some Above <-> price prev <= price s) /\
  (vsPrevious data preClose i = Some Below <-> price s < price prev).
Proof.
  intros Hpos Hs Hprev. unfold vsPrevious.
  rewrite (volumeColors_later data preClose i s prev Hpos Hs Hprev).
  destruct (JS.ge (price s) (price prev)) eqn:E.
  - apply ge_true_iff in E.
    repeat split; solve [ discriminate | intros _; reflexivity
                        | intros _; exact E | intro; lra ].
  - apply ge_false_iff in E.
    repeat split; solve [ discriminate | intros _; reflexivity
                        | intros _; exact E | intro; lra ].
Qed.

Lemma vsPrevious_tie_counts_as_up_witness :
  (nth_error (volumeColors [sample_up; sample_up] 10) 1 = Some RED_BAR <->
   price sample_up <= price sample_up) /\
  (nth_error (volumeColors [sample_up; sample_up] 10) 1 = Some GREEN_BAR <->
   price sample_up < price sample_up) /\
  (vsPrevious [sample_up; sample_up] 10 1 = Some Above <->
   price sample_up <= price sample_up) /\
  (vsPrevious [sample_up; sample_up] 10 1 = Some Below <->
   price sample_up < price sample_up).
Proof.
  apply (vsPrevious_tie_counts_as_up [sample_up; sample_up] 10 1 sample_up sample_up).
  - apply Nat.lt_0_1.
  - reflexivity.
  - reflexivity.
Defined.

(** ** Samples against the previous close *)

Lemma vsPrevious_first (s : TimeSeriesData) (rest : list TimeSeriesData) (preClose : Q) :
  vsPrevious (s :: rest) preClose 0 =
  Some (if JS.ge (price s) preClose then Above else Below).
Proof.
  unfold vsPrevious. rewrite volumeColors_first.
  destruct (JS.ge (price s) preClose); reflexivity.
Qed.

Lemma ge_difference (a b : Q) : JS.ge (a - b) 0 = JS.ge a b.
Proof.
  destruct (JS.ge a b) eqn:E.
  - apply ge_true_iff in E. apply ge_true_iff. lra.
  - apply ge_false_iff in E. apply ge_false_iff. lra.
Qed.

(** What the tooltip shows for a price. *)
Lemma tooltipRows_price (preClose : Q) (hovered : string) (p : Q) :
  exists price_text change_text,
    tooltipRows preClose (mkParam hovered (PriceSeries p)) =
    [ RowLine "价格" (Some (if JS.ge p preClose then RED else GREEN)) price_text;
      RowLine "涨跌" (Some (if JS.ge p preClose then RED else GREEN)) change_text ].
Proof.
  unfold tooltipRows. cbn [series]. cbv beta zeta.
  rewrite (ge_difference p preClose). do 2 eexists. reflexivity.
Qed.

Lemma priceColor_by_order (preClose p : Q) :
  priceColor preClose p = Some (if JS.ge p preClose then RED else GREEN).
Proof.
  unfold priceColor.
  destruct (tooltipRows_price preClose EmptyString p) as [t1 [t2 ->]]. reflexivity.
Qed.

Lemma vsReference_by_order (preClose p : Q) :
  vsReference preClose p = Some (if JS.ge p preClose then Above else Below).
Proof.
  unfold vsReference. rewrite priceColor_by_order.
  destruct (JS.ge p preClose); reflexivity.
Qed.

(** A sample at the previous close, which the rule of C4 calls equal, is red
    (above) in the tooltip of the chart, in its price and in its change; a
    sample 0.0004 below the previous close, equal by that rule too, is
    below.  This refutes C4 as stated. *)
Lemma samples_near_reference_are_not_equal :
  exists o,
    useEffect true [sample_flat] 10 None None = JS.Returned (Some o) /\
    ~ 0.001 < price sample_flat - 10 /\
    ~ price sample_flat - 10 < - 0.001 /\
    tooltip_formatter o (JS.mkDate 2026 10 2)
      [mkParam "09:30" (PriceSeries (price sample_flat))] =
    [ HeaderLine "2026-11-02 09:30";
      RowLine "价格" (Some RED) "10.00";
      RowLine "涨跌" (Some RED) "+0.00 (+0.00%)" ] /\
    vsReference 10 (price sample_flat) = Some Above /\
    ~ 9.9996 - 10 < - 0.001 /\
    vsReference 10 9.9996 = Some Below.
Proof.
  eexists. split; [reflexivity |].
  repeat split; try reflexivity; intro H; discriminate H.
Qed.

(** C4, amended.  The component classifies every sample of every series
    against the previous close by a plain comparison, without epsilon: the
    tooltip of the sample shows its price and its change red (above)
    exactly when the price is at or above the previous close and green
    (below) otherwise, never as equal, and the first volume bar follows the
    same comparison.  The epsilon of 0.001 is that of the labels of the
    price axis: a label is red exactly above the previous close plus 0.001,
    green exactly below the previous close minus 0.001, grey in between. *)
Theorem samples_compare_without_epsilon
    (data : list TimeSeriesData) (preClose : Q) (stockName stockCode : option string)
    (i : nat) (s : TimeSeriesData) :
  nth_error data i = Some s ->
  exists o,
    useEffect true data preClose stockName stockCode = JS.Returned (Some o) /\
    nth_error (series_price_data o) i = Some (price s) /\
    (forall today hovered, exists color price_text change_text,
       tooltip_formatter o today [mkParam hovered (PriceSeries (price s))] =
       [ HeaderLine (dateStr today ++ " " ++ hovered)%string;
         RowLine "价格" (Some color) price_text;
         RowLine "涨跌" (Some color) change_text ] /\
       (color = RED <-> preClose <= price s) /\
       (color = GREEN <-> price s < preClose)) /\
    (vsReference preClose (price s) = Some Above <-> preClose <= price s) /\
    (vsReference preClose (price s) = Some Below <-> price s < preClose) /\
    vsReference preClose (price s) <> Some Equal /\
    (i = 0%nat -> vsPrevious data preClose i = vsReference preClose (price s)) /\
    (forall v,
       (priceAxis_label_color o v = RED <-> preClose + 0.001 < v) /\
       (priceAxis_label_color o v = GREEN <-> v < preClose - 0.001) /\
       (priceAxis_label_color o v = GREY <->
        preClose - 0.001 <= v <= preClose + 0.001)).
Proof.
  intros Hs.
  assert (Hne : data <> []) by (intros ->; destruct i; discriminate).
  destruct (useEffect_runs data preClose stockName stockCode Hne)
    as [o [Hrun [_ [_ [_ [_ [_ [Htip [Hcolor [_ [Hprices _]]]]]]]]]]].
  exists o. split; [exact Hrun |].
  split; [rewrite Hprices; unfold prices; rewrite nth_error_map, Hs; reflexivity |].
  rewrite Htip, Hcolor, vsReference_by_order.
  assert (Horder : (JS.ge (price s) preClose = true /\ preClose <= price s) \/
                   (JS.ge (price s) preClose = false /\ price s < preClose)).
  { destruct (JS.ge (price s) preClose) eqn:E.
    - left. split; [reflexivity | apply ge_true_iff; exact E].
    - right. split; [reflexivity | apply ge_false_iff; exact E]. }
  split; [| split; [| split; [| split; [| split]]]].
  - intros today hovered. unfold tooltipFormatter. cbn [flat_map axisValue].
    destruct (tooltipRows_price preClose hovered (price s)) as [t1 [t2 ->]].
    do 3 eexists. split; [reflexivity |].
    destruct Horder as [[-> H] | [-> H]]; split; split;
      solve [ discriminate | intros _; exact H | intros _; reflexivity | intro; lra ].
  - destruct Horder as [[-> H] | [-> H]]; split;
      solve [ discriminate | intros _; exact H | intros _; reflexivity | intro; lra ].
  - destruct Horder as [[-> H] | [-> H]]; split;
      solve [ discriminate | intros _; exact H | intros _; reflexivity | intro; lra ].
  - destruct (JS.ge (price s) preClose); discriminate.
  - intros ->. destruct data as [|first rest]; [discriminate |].
    injection Hs as ->. apply vsPrevious_first.
  - intros v.
    destruct (priceAxisLabelColor_cases preClose v)
      as [[H ->] | [[H ->] | [[H1 H2] ->]]].
    + split; [split; [intros _; exact H | reflexivity] |].
      split; [split; [discriminate | intro; lra] |].
      split; [discriminate | intros [? ?]; lra].
    + split; [split; [discriminate | intro; lra] |].
      split; [split; [intros _; exact H | reflexivity] |].
      split; [discriminate | intros [? ?]; lra].
    + split; [split; [discriminate | intro; lra] |].
      split; [split; [discriminate | intro; lra] |].
      split; [intros _; split; assumption | reflexivity].
Qed.

Lemma samples_compare_without_epsilon_witness :
  exists o,
    useEffect true session 10 None None = JS.Returned (Some o) /\
    nth_error (series_price_data o) 2 = Some (price sample_down) /\
    (vsReference 10 (price sample_down) = Some Below <-> price sample_down < 10) /\
    vsReference 10 (price sample_down) <> Some Equal.
Proof.
  destruct (samples_compare_without_epsilon session 10 None None 2 sample_down)
    as [o [Hrun [Hprice [_ [_ [Hbelow [Hnot _]]]]]]].
  - reflexivity.
  - exists o. repeat split; try assumption; apply Hbelow.
Defined.

(** C6.  The first volume bar of every non-empty series falls back on the
    previous close: it is red (above) exactly when the first price is at or
    above the previous close and green (below) otherwise, which is the very
    comparison the component makes of a sample with the previous close, so
    that [vsPrevious] of the first sample is its [vsReference]; so it is, in
    particular, for the one sample of a series of one. *)
Theorem first_bar_is_vsReference
    (s : TimeSeriesData) (rest : list TimeSeriesData) (preClose : Q)
    (stockName stockCode : option string) :
  exists o,
    useEffect true (s :: rest) preClose stockName stockCode = JS.Returned (Some o) /\
    nth_error (series_volume_data o) 0 =
      Some (mkBar (volume s)
                  (Some (if JS.ge (price s) preClose then RED_BAR else GREEN_BAR))) /\
    (vsPrevious (s :: rest) preClose 0 = Some Above <-> preClose <= price s) /\
    (vsPrevious (s :: rest) preClose 0 = Some Below <-> price s < preClose) /\
    vsPrevious (s :: rest) preClose 0 = vsReference preClose (price s) /\
    vsPrevious [s] preClose 0 = vsReference preClose (price s).
Proof.
  destruct (useEffect_runs (s :: rest) preClose stockName stockCode)
    as [o [Hrun [_ [_ [_ [_ [_ [_ [_ [_ [_ [_ Hbars]]]]]]]]]]]]; [discriminate |].
  exists o. split; [exact Hrun |].
  split; [rewrite Hbars; reflexivity |].
  rewrite !vsPrevious_first, vsReference_by_order.
  destruct (JS.ge (price s) preClose) eqn:E;
    [apply ge_true_iff in E | apply ge_false_iff in E].
  - split; [split; [intros _; exact E | reflexivity] |].
    split; [split; [discriminate | intro; lra] |].
    split; reflexivity.
  - split; [split; [discriminate | intro; lra] |].
    split; [split; [intros _; exact E | reflexivity] |].
    split; reflexivity.
Qed.

(** ** The empty series *)

(** C7.  For the empty series the effect returns at its guard, before any
    deviation is computed: no option reaches the chart and nothing is
    raised, whatever the other props are; and the component renders the
    empty-state message in place of the chart container. *)
Theorem empty_series_shows_placeholder
    (mounted : bool) (preClose : Q) (stockName stockCode : option string) :
  useEffect mounted [] preClose stockName stockCode = JS.Returned None /\
  render [] = EmptyState "暂无分时数据".
Proof.
  split; [| reflexivity].
  unfold useEffect. simpl. rewrite orb_true_r. reflexivity.
Qed.

(** What the guard is there for: run on the empty series, the body of the
    effect raises as soon as a stock name asks for the latest figures. *)
Lemma body_raises_without_samples (preClose : Q) (stockName stockCode : option string) :
  JS.truthy stockName = true ->
  buildOption [] preClose stockName stockCode = JS.Thrown JS.TypeError.
Proof.
  intros Hname. unfold buildOption, graphic. rewrite Hname. reflexivity.
Qed.

(** ** What the output depends on *)

Lemma string_length_app (a b : string) :
  String.length (a ++ b) = (String.length a + String.length b)%nat.
Proof.
  induction a as [|c a IH]; simpl; [reflexivity | rewrite IH; reflexivity].
Qed.

Lemma string_app_cancel_r (a b x : string) :
  (a ++ x)%string = (b ++ x)%string -> a = b.
Proof.
  revert b. induction a as [|c a IH]; intros b Heq.
  - destruct b as [|d b]; [reflexivity |].
    apply (f_equal String.length) in Heq.
    simpl in Heq. rewrite string_length_app in Heq. lia.
  - destruct b as [|d b].
    + apply (f_equal String.length) in Heq.
      simpl in Heq. rewrite string_length_app in Heq. lia.
    + simpl in Heq. injection Heq as Hc Hrest.
      rewrite Hc, (IH b Hrest). reflexivity.
Qed.

(** Every bar carries the colour [volumeColors] gives its sample. *)
Lemma bars_carry_volumeColors (data : list TimeSeriesData) (preClose : Q) :
  map itemStyle_color (volumeBars data preClose) =
  map Some (volumeColors data preClose).
Proof.
  apply nth_error_ext. intro i. unfold volumeBars.
  rewrite !nth_error_map, nth_error_mapi.
  unfold volumeColors at 2. rewrite nth_error_mapi.
  destruct (nth_error (volumes data) i) as [vol|] eqn:E; simpl; [| reflexivity].
  unfold volumeColors. rewrite nth_error_mapi, E. reflexivity.
Qed.

(** The same series and previous close, the same entry hovered, on two
    days: the tooltip is not the same.  This refutes C8 as stated (a full
    chart description that is a function of samples and reference alone). *)
Lemma tooltip_changes_with_the_day :
  exists o,
    useEffect true session 10 None None = JS.Returned (Some o) /\
    tooltip_formatter o (JS.mkDate 2026 10 2) [mkParam "09:31" (PriceSeries 10.05)] <>
    tooltip_formatter o (JS.mkDate 2026 10 3) [mkParam "09:31" (PriceSeries 10.05)].
Proof.
  eexists. split; [reflexivity |]. simpl. discriminate.
Qed.

(** C8, amended.  On identical props every run hands the chart the same
    domains, bar colours, header texts and series: each is given by the
    props alone.  The tooltip has one more input, the day read from the
    clock when it is shown: two tooltips for the same entries agree in
    every row below the header, agree entirely when the day is the same,
    and differ when it is not. *)
Theorem only_the_day_is_a_hidden_input
    (data : list TimeSeriesData) (preClose : Q) (stockName stockCode : option string)
    (today1 today2 : JS.Date) (params : list TooltipParam) :
  data <> [] ->
  exists o,
    useEffect true data preClose stockName stockCode = JS.Returned (Some o) /\
    priceAxis_min o = yMin data preClose /\
    priceAxis_max o = yMax data preClose /\
    pctAxis_min o = JS.neg (maxChangePct data preClose) /\
    pctAxis_max o = maxChangePct data preClose /\
    map itemStyle_color (series_volume_data o) = map Some (volumeColors data preClose) /\
    graphic data preClose stockName stockCode = JS.Returned (option_graphic o) /\
    series_price_data o = prices data /\
    series_avg_data o = avgPrices data /\
    tl (tooltip_formatter o today1 params) = tl (tooltip_formatter o today2 params) /\
    (dateStr today1 = dateStr today2 ->
     tooltip_formatter o today1 params = tooltip_formatter o today2 params) /\
    (params <> [] -> dateStr today1 <> dateStr today2 ->
     tooltip_formatter o today1 params <> tooltip_formatter o today2 params).
Proof.
  intros Hne.
  destruct (useEffect_runs data preClose stockName stockCode Hne)
    as [o [Hrun [Hg [Hmin [Hmax [Hpmin [Hpmax [Htip [_ [_ [Hp [Ha Hbars]]]]]]]]]]]].
  exists o. split; [exact Hrun |].
  split; [exact Hmin |]. split; [exact Hmax |].
  split; [exact Hpmin |]. split; [exact Hpmax |].
  split; [rewrite Hbars; apply bars_carry_volumeColors |].
  split; [exact Hg |]. split; [exact Hp |]. split; [exact Ha |].
  rewrite Htip. unfold tooltipFormatter.
  destruct params as [|first others].
  - split; [reflexivity | split; [reflexivity | congruence]].
  - split; [reflexivity | split].
    + intros Hday. rewrite Hday. reflexivity.
    + intros _ Hday Heq. injection Heq as Hhead.
      apply Hday. apply (string_app_cancel_r _ _ _ Hhead).
Qed.

Lemma only_the_day_is_a_hidden_input_witness :
  exists o,
    useEffect true session 10 None None = JS.Returned (Some o) /\
    priceAxis_min o = yMin session 10 /\
    priceAxis_max o = yMax session 10 /\
    tl (tooltip_formatter o (JS.mkDate 2026 10 2) [mkParam "09:31" (PriceSeries 10.05)]) =
    tl (tooltip_formatter o (JS.mkDate 2026 10 3) [mkParam "09:31" (PriceSeries 10.05)]).
Proof.
  destruct (only_the_day_is_a_hidden_input session 10 None None
              (JS.mkDate 2026 10 2) (JS.mkDate 2026 10 3)
              [mkParam "09:31" (PriceSeries 10.05)])
    as [o [Hrun [Hmin [Hmax [_ [_ [_ [_ [_ [_ [Hrows _]]]]]]]]]]].
  - discriminate.
  - exists o. repeat split; assumption.
Defined.

(** ** Volume labels *)

(** [toFixed] rounds to the nearest: the integer it writes is within one
    half of [|x| * 10^d]. *)
Lemma nearest_within_half (x : Q) (d : nat) :
  Qabs (inject_Z (JS.nearest x d) - Qabs x * inject_Z (10 ^ Z.of_nat d)) <= 1 # 2.
Proof.
  unfold JS.nearest.
  set (y := Qabs x * inject_Z (10 ^ Z.of_nat d)).
  pose proof (Qfloor_le (y + (1 # 2))) as Hle.
  pose proof (Qlt_floor (y + (1 # 2))) as Hlt.
  rewrite inject_Z_plus in Hlt. change (inject_Z 1) with 1 in Hlt.
  apply Qabs_Qle_condition.
  generalize dependent (inject_Z (Qfloor (y + (1 # 2)))). clearbody y.
  intros n Hle Hlt. split; lra.
Qed.

(** A volume of 1500 is "1.5千" on the axis and "1500" in the tooltip; a
    volume of 12345 is "1.2万" on the axis and "1.23万" in the tooltip.  This
    refutes the last part of C9 as stated (the same abbreviation in the
    tooltip). *)
Lemma tooltip_volume_is_abbreviated_differently :
  volumeAxisLabelFormatter 1500 = "1.5千"%string /\
  tooltipVolStr 1500 = "1500"%string /\
  volumeAxisLabelFormatter 12345 = "1.2万"%string /\
  tooltipVolStr 12345 = "1.23万"%string /\
  tooltipVolStr 1500 <> volumeAxisLabelFormatter 1500 /\
  tooltipVolStr 12345 <> volumeAxisLabelFormatter 12345.
Proof.
  repeat split; try reflexivity; vm_compute; discriminate.
Qed.

(** C9, amended.  For every volume that is not negative, the label of the
    volume axis has three tiers: from 10,000 on, the volume over 10,000
    with one decimal and the suffix 万; from 1,000 on, the volume over 1,000
    with one decimal and the suffix 千; below, the integer itself.  The
    tooltip has two tiers of its own: from 10,000 on, the volume over 10,000
    with two decimals and the suffix 万; below, the integer itself.  The
    decimals are those of the nearest tenth or hundredth. *)
Theorem volume_labels_by_magnitude (value : Z) :
  (0 <= value)%Z ->
  ((10000 <= value)%Z ->
   volumeAxisLabelFormatter value =
     (JS.toFixed (inject_Z value / 10000) 1 ++ "万")%string /\
   tooltipVolStr value =
     (JS.toFixed (inject_Z value / 10000) 2 ++ "万")%string) /\
  ((1000 <= value < 10000)%Z ->
   volumeAxisLabelFormatter value =
     (JS.toFixed (inject_Z value / 1000) 1 ++ "千")%string /\
   tooltipVolStr value = JS.string_of_Z value) /\
  ((value < 1000)%Z ->
   volumeAxisLabelFormatter value = JS.string_of_Z value /\
   tooltipVolStr value = JS.string_of_Z value) /\
  Qabs (inject_Z (JS.nearest (inject_Z value / 10000) 1) -
        inject_Z value / 1000) <= 1 # 2 /\
  Qabs (inject_Z (JS.nearest (inject_Z value / 1000) 1) -
        inject_Z value / 100) <= 1 # 2 /\
  Qabs (inject_Z (JS.nearest (inject_Z value / 10000) 2) -
        inject_Z value / 100) <= 1 # 2.
Proof.
  intros Hnonneg.
  assert (Hq : 0 <= inject_Z value).
  { change 0 with (inject_Z 0). rewrite <- Zle_Qle. exact Hnonneg. }
  assert (Hround : forall (c : Q) (d : nat) (target : Q),
            0 < c ->
            inject_Z value / c * inject_Z (10 ^ Z.of_nat d) == target ->
            Qabs (inject_Z (JS.nearest (inject_Z value / c) d) - target) <= 1 # 2).
  { intros c d target Hc Htarget.
    pose proof (nearest_within_half (inject_Z value / c) d) as Hnear.
    assert (Hpos : 0 <= inject_Z value / c).
    { apply Qle_shift_div_l; [exact Hc | lra]. }
    rewrite (Qabs_pos _ Hpos) in Hnear. rewrite Htarget in Hnear. exact Hnear. }
  unfold volumeAxisLabelFormatter, tooltipVolStr.
  split; [| split; [| split; [| split; [| split]]]].
  - intros Hbig. apply Z.leb_le in Hbig. rewrite Hbig. split; reflexivity.
  - intros [Hlow Hhigh].
    apply Z.leb_le in Hlow. apply Z.leb_gt in Hhigh. rewrite Hlow, Hhigh.
    split; reflexivity.
  - intros Hsmall.
    assert (H1 : (1000 <=? value)%Z = false) by (apply Z.leb_gt; exact Hsmall).
    assert (H2 : (10000 <=? value)%Z = false) by (apply Z.leb_gt; lia).
    rewrite H1, H2. split; reflexivity.
  - apply Hround; [reflexivity |].
    change (inject_Z (10 ^ Z.of_nat 1)) with 10. field.
  - apply Hround; [reflexivity |].
    change (inject_Z (10 ^ Z.of_nat 1)) with 10. field.
  - apply Hround; [reflexivity |].
    change (inject_Z (10 ^ Z.of_nat 2)) with 100. field.
Qed.

Lemma volume_labels_by_magnitude_witness :
  volumeAxisLabelFormatter 12345 =
    (JS.toFixed (inject_Z 12345 / 10000) 1 ++ "万")%string /\
  tooltipVolStr 12345 =
    (JS.toFixed (inject_Z 12345 / 10000) 2 ++ "万")%string.
Proof.
  apply (volume_labels_by_magnitude 12345).
  - discriminate.
  - discriminate.
Defined.

(** ** Colours do not look at volumes *)

Lemma Forall2_nth_error {A : Type} (R : A -> A -> Prop) (l1 l2 : list A) :
  Forall2 R l1 l2 ->
  forall i,
    match nth_error l1 i, nth_error l2 i with
    | Some a, Some b => R a b
    | None, None => True
    | _, _ => False
    end.
Proof.
  induction 1 as [|a b l1 l2 Hab _ IH]; intros [|i]; simpl; auto.
  apply IH.
Qed.

Lemma ge_congruence (a b c d : Q) : a == c -> b == d -> JS.ge a b = JS.ge c d.
Proof. intros Hac Hbd. unfold JS.ge. rewrite Hac, Hbd. reflexivity. Qed.

(** C10.  The colour of every volume bar is given by the prices and the
    previous close alone: two series with the same prices, sample by
    sample, and the same previous close get the same colours and the same
    [vsPrevious] directions, whatever their volumes (and times and average
    prices) are. *)
Theorem colours_ignore_volumes
    (data1 data2 : list TimeSeriesData) (preClose1 preClose2 : Q) :
  Forall2 (fun a b => price a == price b) data1 data2 ->
  preClose1 == preClose2 ->
  volumeColors data1 preClose1 = volumeColors data2 preClose2 /\
  map itemStyle_color (volumeBars data1 preClose1) =
  map itemStyle_color (volumeBars data2 preClose2) /\
  forall i, vsPrevious data1 preClose1 i = vsPrevious data2 preClose2 i.
Proof.
  intros Hprices Hclose.
  assert (Hcolors : volumeColors data1 preClose1 = volumeColors data2 preClose2).
  { apply nth_error_ext. intro i.
    unfold volumeColors, volumes, prices.
    rewrite !nth_error_mapi, !nth_error_map.
    pose proof (Forall2_nth_error _ _ _ Hprices i) as Hi.
    pose proof (Forall2_nth_error _ _ _ Hprices (i - 1)) as Hprev.
    destruct (nth_error data1 i) as [s1|], (nth_error data2 i) as [s2|];
      try contradiction; [| reflexivity].
    simpl. destruct i as [|j].
    - simpl. rewrite (ge_congruence _ _ _ _ Hi Hclose). reflexivity.
    - simpl Nat.eqb. cbv iota.
      destruct (nth_error data1 (S j - 1)) as [p1|],
               (nth_error data2 (S j - 1)) as [p2|];
        try contradiction; simpl; [| reflexivity].
      rewrite (ge_congruence _ _ _ _ Hi Hprev). reflexivity. }
  split; [exact Hcolors |]. split.
  - rewrite !bars_carry_volumeColors, Hcolors. reflexivity.
  - intro i. unfold vsPrevious. rewrite Hcolors. reflexivity.
Qed.

Lemma colours_ignore_volumes_witness :
  volumeColors session 10 =
  volumeColors [mkData "09:30" 10 0 9; mkData "09:31" (1005 # 100) 7 11;
                mkData "09:32" (998 # 100) 999999 12] 10.
Proof.
  apply (colours_ignore_volumes session
           [mkData "09:30" 10 0 9; mkData "09:31" (1005 # 100) 7 11;
            mkData "09:32" (998 # 100) 999999 12] 10 10).
  - repeat constructor.
  - reflexivity.
Defined.

(** * Further properties of the chart *)

(** ** What the axes hold *)

(** X1.  Every price and every average price of the series lies on the
    price axis, and so does the previous close; when the previous close is
    above zero, the prices lie strictly inside, away from both ends. *)
Theorem samples_lie_on_price_axis
    (data : list TimeSeriesData) (preClose : Q) (s : TimeSeriesData) :
  In s data ->
  yMin data preClose <= price s <= yMax data preClose /\
  yMin data preClose <= avg_price s <= yMax data preClose /\
  yMin data preClose <= preClose <= yMax data preClose /\
  (0 < preClose ->
   yMin data preClose < price s < yMax data preClose /\
   yMin data preClose < avg_price s < yMax data preClose).
Proof.
  intros Hin.
  pose proof (maxDev_ge_price data preClose s Hin) as Hp.
  pose proof (maxDev_ge_avg data preClose s Hin) as Ha.
  pose proof (maxDev_ge_floor data preClose) as Hfloor.
  pose proof (Qabs_nonneg (price s - preClose)) as Hnonneg.
  apply Qabs_Qle_condition in Hp. apply Qabs_Qle_condition in Ha.
  unfold yMin, yMax.
  generalize dependent (maxDev data preClose). intros m Hfloor Hp Ha.
  repeat split; lra.
Qed.

Lemma samples_lie_on_price_axis_witness :
  yMin session 10 < price sample_up < yMax session 10 /\
  yMin session 10 < avg_price sample_up < yMax session 10.
Proof.
  apply (samples_lie_on_price_axis session 10 sample_up).
  - right. left. reflexivity.
  - reflexivity.
Defined.

(** X2.  With a previous close above zero, the percentage axis is finite
    and the change of every sample against the previous close, in percent
    (the figure of the tooltip), lies strictly inside it. *)
Theorem changes_lie_on_percentage_axis
    (data : list TimeSeriesData) (preClose : Q) (s : TimeSeriesData) :
  0 < preClose -> In s data ->
  exists m,
    maxChangePct data preClose = JS.Finite m /\
    JS.mul (JS.div (price s - preClose) preClose) 100 =
      JS.Finite ((price s - preClose) / preClose * 100) /\
    - m < (price s - preClose) / preClose * 100 < m.
Proof.
  intros Hpos Hin.
  assert (Hnz : ~ preClose == 0) by (intro E; rewrite E in Hpos; lra).
  exists (maxDev data preClose / preClose * 100 * 1.1).
  split; [apply maxChangePct_finite; exact Hnz |].
  split.
  { unfold JS.div. destruct (Qeq_bool preClose 0) eqn:E.
    - apply Qeq_bool_iff in E. contradiction.
    - reflexivity. }
  pose proof (maxDev_ge_price data preClose s Hin) as Hp.
  pose proof (maxDev_ge_floor data preClose) as Hfloor.
  apply Qabs_Qle_condition in Hp.
  assert (Hinv : 0 < / preClose) by (apply Qinv_lt_0_compat; exact Hpos).
  unfold Qdiv.
  generalize dependent (maxDev data preClose). intros m Hfloor Hp.
  generalize dependent (/ preClose). intros r Hr.
  generalize dependent (price s - preClose). intros x Hx.
  assert (Hm : 0 < m) by lra.
  split; nra.
Qed.

Lemma changes_lie_on_percentage_axis_witness :
  exists m,
    maxChangePct session 10 = JS.Finite m /\
    JS.mul (JS.div (price sample_down - 10) 10) 100 =
      JS.Finite ((price sample_down - 10) / 10 * 100) /\
    - m < (price sample_down - 10) / 10 * 100 < m.
Proof.
  apply (changes_lie_on_percentage_axis session 10 sample_down).
  - reflexivity.
  - right. right. left. reflexivity.
Defined.

(** ** How the axes follow the series *)

Lemma maxDev_incl (data more : list TimeSeriesData) (preClose : Q) :
  incl data more -> maxDev data preClose <= maxDev more preClose.
Proof.
  intros Hincl. unfold maxDev at 1. apply Math_max_lub.
  - apply maxDev_ge_floor.
  - intros x Hx. apply in_app_or in Hx. destruct Hx as [Hx | Hx].
    + unfold prices in Hx. rewrite map_map in Hx. apply in_map_iff in Hx.
      destruct Hx as [s [<- Hin]]. apply maxDev_ge_price. apply Hincl. exact Hin.
    + unfold avgPrices in Hx. rewrite map_map in Hx. apply in_map_iff in Hx.
      destruct Hx as [s [<- Hin]]. apply maxDev_ge_avg. apply Hincl. exact Hin.
Qed.

(** X3.  More samples never narrow the price axis: when every sample of one
    series occurs in another, the axis of the other reaches at least as far
    on both sides.  Two series with the same samples, in any order and any
    number of repetitions, get the same axis. *)
Theorem price_axis_only_widens
    (data more : list TimeSeriesData) (preClose : Q) :
  incl data more ->
  yMin more preClose <= yMin data preClose /\
  yMax data preClose <= yMax more preClose /\
  (incl more data ->
   yMin more preClose == yMin data preClose /\
   yMax more preClose == yMax data preClose).
Proof.
  intros Hincl. pose proof (maxDev_incl data more preClose Hincl) as Hle.
  unfold yMin, yMax. split; [lra | split; [lra |]].
  intros Hback. pose proof (maxDev_incl more data preClose Hback) as Hge.
  assert (E : maxDev more preClose == maxDev data preClose)
    by (apply Qle_antisym; assumption).
  rewrite E. split; reflexivity.
Qed.

Lemma price_axis_only_widens_witness :
  yMin session 10 <= yMin [sample_flat; sample_down] 10 /\
  yMax [sample_flat; sample_down] 10 <= yMax session 10.
Proof.
  destruct (price_axis_only_widens [sample_flat; sample_down] session 10)
    as [Hmin [Hmax _]].
  - intros x [<- | [<- | []]]; simpl; auto.
  - split; [exact Hmin | exact Hmax].
Defined.

(** The colour of an index, for any index. *)
Lemma volumeColors_nth (data : list TimeSeriesData) (preClose : Q) (i : nat) :
  nth_error (volumeColors data preClose) i =
  match nth_error data i with
  | None => None
  | Some s =>
      Some (if Nat.eqb i 0 then
              (if JS.ge (price s) preClose then RED_BAR else GREEN_BAR)
            else
              (if ge_undef (Some (price s))
                           (option_map price (nth_error data (i - 1)))
               then RED_BAR else GREEN_BAR))
  end.
Proof.
  unfold volumeColors, volumes, prices.
  rewrite nth_error_mapi, !nth_error_map.
  destruct (nth_error data i) as [s|]; reflexivity.
Qed.

Lemma length_volumeColors (data : list TimeSeriesData) (preClose : Q) :
  List.length (volumeColors data preClose) = List.length data.
Proof.
  unfold volumeColors, mapi, volumes.
  rewrite length_mapi_from, length_map. reflexivity.
Qed.

(** X4.  A new minute never recolours the bars before it: the colours of a
    series extended by further samples begin with the colours of the series
    itself. *)
Theorem earlier_bars_keep_their_colour
    (data more : list TimeSeriesData) (preClose : Q) :
  firstn (List.length data) (volumeColors (data ++ more) preClose) =
  volumeColors data preClose.
Proof.
  apply nth_error_ext. intro i.
  destruct (Nat.lt_ge_cases i (List.length data)) as [Hlt | Hge].
  - rewrite nth_error_firstn.
    assert (Hi : (i <? List.length data)%nat = true) by (apply Nat.ltb_lt; exact Hlt).
    rewrite Hi, !volumeColors_nth, nth_error_app1 by exact Hlt.
    destruct (nth_error data i) as [s|]; [| reflexivity].
    destruct i as [|j]; [reflexivity |].
    rewrite nth_error_app1 by lia. reflexivity.
  - rewrite nth_error_firstn.
    assert (Hi : (i <? List.length data)%nat = false) by (apply Nat.ltb_ge; exact Hge).
    rewrite Hi. symmetry. apply nth_error_None.
    rewrite length_volumeColors. exact Hge.
Qed.

(** ** The option as a whole *)

(** X6.  In the option of a series that is not empty, the time axis and the
    three series have one entry per sample, in the order of the samples;
    every bar has the volume of its sample and a colour, red or green, none
    is left without one; the mark line sits at the previous close. *)
Theorem series_are_aligned
    (data : list TimeSeriesData) (preClose : Q) (stockName stockCode : option string) :
  data <> [] ->
  exists o,
    useEffect true data preClose stockName stockCode = JS.Returned (Some o) /\
    xAxis_data o = map time data /\
    series_price_data o = map price data /\
    series_avg_data o = map avg_price data /\
    map bar_value (series_volume_data o) = map volume data /\
    Forall (fun bar => itemStyle_color bar = Some RED_BAR \/
                       itemStyle_color bar = Some GREEN_BAR)
           (series_volume_data o) /\
    markLine_yAxis o = preClose.
Proof.
  intros Hne.
  destruct (graphic_returns data preClose stockName stockCode Hne) as [texts Hg].
  assert (Hrun : exists o,
            useEffect true data preClose stockName stockCode = JS.Returned (Some o) /\
            xAxis_data o = times data /\ series_price_data o = prices data /\
            series_avg_data o = avgPrices data /\
            series_volume_data o = volumeBars data preClose /\
            markLine_yAxis o = preClose).
  { unfold useEffect, buildOption. rewrite Hg.
    destruct data as [|s rest]; [congruence |]. simpl negb. simpl orb. cbv iota.
    eexists. split; [reflexivity |]. simpl. repeat split; reflexivity. }
  destruct Hrun as [o [Hrun [Hx [Hp [Ha [Hv Hm]]]]]].
  exists o. split; [exact Hrun |].
  rewrite Hx, Hp, Ha, Hv, Hm.
  split; [reflexivity | split; [reflexivity | split; [reflexivity |]]].
  split; [| split; [| reflexivity]].
  - apply nth_error_ext. intro i. unfold volumeBars, volumes.
    rewrite !nth_error_map, nth_error_mapi, nth_error_map.
    destruct (nth_error data i); reflexivity.
  - apply Forall_forall. intros bar Hbar.
    apply In_nth_error in Hbar. destruct Hbar as [i Hi].
    unfold volumeBars, volumes in Hi.
    rewrite nth_error_mapi, nth_error_map in Hi.
    destruct (nth_error data i) as [s|] eqn:Es; [| discriminate].
    simpl in Hi. injection Hi as <-. simpl.
    rewrite volumeColors_nth, Es.
    destruct (Nat.eqb i 0).
    + destruct (JS.ge (price s) preClose); auto.
    + destruct (ge_undef _ _); auto.
Qed.

Lemma series_are_aligned_witness :
  exists o,
    useEffect true session 10 None None = JS.Returned (Some o) /\
    xAxis_data o = map time session /\
    series_price_data o = map price session /\
    series_avg_data o = map avg_price session /\
    map bar_value (series_volume_data o) = map volume session /\
    Forall (fun bar => itemStyle_color bar = Some RED_BAR \/
                       itemStyle_color bar = Some GREEN_BAR)
           (series_volume_data o) /\
    markLine_yAxis o = 10.
Proof.
  apply (series_are_aligned session 10 None None). discriminate.
Defined.

(** ** Labels *)

(** X7.  Of all the times of the axis, exactly five are labelled: 09:30,
    10:30, 14:00 and 15:00 with themselves, 11:30 with the joint label of
    the lunch break; 13:00 and every other time get the empty label. *)
Theorem time_axis_labels (value : string) :
  (xAxisLabelFormatter value <> EmptyString <->
   In value ["09:30"; "10:30"; "11:30"; "14:00"; "15:00"]%string) /\
  (In value ["09:30"; "10:30"; "14:00"; "15:00"]%string ->
   xAxisLabelFormatter value = value) /\
  xAxisLabelFormatter "11:30" = "11:30/13:00"%string /\
  xAxisLabelFormatter "13:00" = EmptyString.
Proof.
  split; [| split; [| split; reflexivity]].
  - unfold xAxisLabelFormatter.
    destruct (String.eqb value "09:30") eqn:E1;
      [apply String.eqb_eq in E1; subst; simpl; split; [auto | discriminate] |].
    destruct (String.eqb value "10:30") eqn:E2;
      [apply String.eqb_eq in E2; subst; simpl; split; [auto | discriminate] |].
    destruct (String.eqb value "11:30") eqn:E3;
      [apply String.eqb_eq in E3; subst; simpl; split; [auto | discriminate] |].
    destruct (String.eqb value "13:00") eqn:E4;
      [apply String.eqb_eq in E4; subst; simpl; split;
         [congruence | intros [H | [H | [H | [H | [H | []]]]]]; discriminate] |].
    destruct (String.eqb value "14:00") eqn:E5;
      [apply String.eqb_eq in E5; subst; simpl; split; [auto 6 | discriminate] |].
    destruct (String.eqb value "15:00") eqn:E6;
      [apply String.eqb_eq in E6; subst; simpl; split; [auto 6 | discriminate] |].
    simpl. apply String.eqb_neq in E1, E2, E3, E5, E6.
    split; [congruence |].
    intros [H | [H | [H | [H | [H | []]]]]]; congruence.
  - intros [<- | [<- | [<- | [<- | []]]]]; reflexivity.
Qed.

Lemma time_axis_labels_witness :
  xAxisLabelFormatter "14:00" = "14:00"%string.
Proof.
  apply (time_axis_labels "14:00"). right. right. left. reflexivity.
Defined.

(** X8.  Labels of the two locked axes never contradict each other.  With a
    previous close above zero, a price and the percentage at the same height
    ([price - preClose = preClose * pct / 100]) are never coloured one red
    and the other green. *)
Theorem locked_labels_never_contradict (preClose price_tick pct_tick : Q) :
  0 < preClose ->
  price_tick - preClose == preClose * pct_tick / 100 ->
  ~ (priceAxisLabelColor preClose price_tick = RED /\
     pctAxisLabelColor pct_tick = GREEN) /\
  ~ (priceAxisLabelColor preClose price_tick = GREEN /\
     pctAxisLabelColor pct_tick = RED).
Proof.
  intros Hpos Hlock.
  assert (Hpct : (0.001 < pct_tick /\ pctAxisLabelColor pct_tick = RED) \/
                 (pct_tick < - 0.001 /\ pctAxisLabelColor pct_tick = GREEN) \/
                 (- 0.001 <= pct_tick <= 0.001 /\ pctAxisLabelColor pct_tick = GREY)).
  { unfold pctAxisLabelColor.
    destruct (JS.gt pct_tick 0.001) eqn:Egt.
    - left. apply gt_true_iff in Egt. split; [exact Egt | reflexivity].
    - destruct (JS.lt pct_tick (- 0.001)) eqn:Elt.
      + right. left. apply lt_true_iff in Elt. split; [exact Elt | reflexivity].
      + right. right. split; [| reflexivity].
        split; apply Qnot_lt_le; intro H.
        * apply lt_true_iff in H. congruence.
        * apply gt_true_iff in H. congruence. }
  assert (Hsign : forall d, d == preClose * pct_tick / 100 ->
            (0 < d -> 0 < pct_tick) /\ (d < 0 -> pct_tick < 0)).
  { intros d Hd. unfold Qdiv in Hd.
    assert (E : d * 100 == preClose * pct_tick) by (rewrite Hd; field).
    split; intros Hd0; nra. }
  destruct (Hsign _ Hlock) as [Hup Hdown].
  destruct (priceAxisLabelColor_cases preClose price_tick)
    as [[H Hc] | [[H Hc] | [H Hc]]];
    destruct Hpct as [[Hq Hd] | [[Hq Hd] | [Hq Hd]]];
    rewrite Hc, Hd; split; intros [A B];
    try discriminate; try (assert (0 < pct_tick) by (apply Hup; lra); lra);
    try (assert (pct_tick < 0) by (apply Hdown; lra); lra).
Qed.

Lemma locked_labels_never_contradict_witness :
  ~ (priceAxisLabelColor 10 10.05 = RED /\ pctAxisLabelColor 0.5 = GREEN) /\
  ~ (priceAxisLabelColor 10 10.05 = GREEN /\ pctAxisLabelColor 0.5 = RED).
Proof.
  apply (locked_labels_never_contradict 10 10.05 0.5); reflexivity.
Defined.

(** ** Header and tooltip *)

Lemma nth_error_last {A : Type} (l : list A) (x : A) :
  nth_error (l ++ [x]) (List.length (l ++ [x]) - 1) = Some x.
Proof.
  rewrite length_app. simpl.
  replace (List.length l + 1 - 1)%nat with (List.length l) by lia.
  rewrite nth_error_app2 by lia. rewrite Nat.sub_diag. reflexivity.
Qed.

Lemma latest_is_last (data : list TimeSeriesData) (s : TimeSeriesData) :
  latestPrice (data ++ [s]) = Some (price s) /\
  latestVolume (data ++ [s]) = Some (volume s).
Proof.
  unfold latestPrice, latestVolume, prices, volumes.
  rewrite !map_app. simpl map. rewrite !nth_error_last. split; reflexivity.
Qed.

(** X9.  With a stock name, the header has two texts and reports the last
    sample of the series: its second text is red exactly when the last
    price is at or above the previous close, green otherwise, and the
    tooltip of that sample shows its price and its change in the very same
    colour and with the same price text.  Without a stock name there is no
    header. *)
Theorem header_reports_last_sample
    (data : list TimeSeriesData) (s : TimeSeriesData) (preClose : Q)
    (stockName stockCode : option string) :
  (JS.truthy stockName = false ->
   graphic (data ++ [s]) preClose stockName stockCode = JS.Returned []) /\
  (JS.truthy stockName = true ->
   exists title figures rest change_text,
     graphic (data ++ [s]) preClose stockName stockCode =
       JS.Returned [title; figures] /\
     text figures = ("价格:" ++ JS.toFixed (price s) 2 ++ rest)%string /\
     (fill figures = RED <-> preClose <= price s) /\
     (fill figures = GREEN <-> price s < preClose) /\
     forall hovered,
       tooltipRows preClose (mkParam hovered (PriceSeries (price s))) =
       [ RowLine "价格" (Some (fill figures)) (JS.toFixed (price s) 2);
         RowLine "涨跌" (Some (fill figures)) change_text ]).
Proof.
  destruct (latest_is_last data s) as [Hp Hv].
  unfold graphic. rewrite Hp, Hv. split; intros Hname; rewrite Hname.
  - reflexivity.
  - do 4 eexists. split; [reflexivity |]. simpl text. simpl fill.
    split; [reflexivity |].
    unfold tooltipRows. simpl series. cbv beta iota zeta.
    destruct (JS.ge (price s - preClose) 0) eqn:E.
    + apply ge_true_iff in E.
      split; [split; [intros _; lra | reflexivity] |].
      split; [split; [discriminate | intro; lra] |].
      intros hovered. reflexivity.
    + apply ge_false_iff in E.
      split; [split; [discriminate | intro; lra] |].
      split; [split; [intros _; lra | reflexivity] |].
      intros hovered. reflexivity.
Qed.

Lemma header_reports_last_sample_witness :
  graphic ([sample_flat] ++ [sample_down]) 10 None None = JS.Returned [] /\
  exists title figures rest change_text,
    graphic ([sample_flat] ++ [sample_down]) 10 (Some "平安银行"%string) None =
      JS.Returned [title; figures] /\
    text figures = ("价格:" ++ JS.toFixed (price sample_down) 2 ++ rest)%string /\
    (fill figures = RED <-> 10 <= price sample_down) /\
    (fill figures = GREEN <-> price sample_down < 10) /\
    forall hovered,
      tooltipRows 10 (mkParam hovered (PriceSeries (price sample_down))) =
      [ RowLine "价格" (Some (fill figures)) (JS.toFixed (price sample_down) 2);
        RowLine "涨跌" (Some (fill figures)) change_text ].
Proof.
  split.
  - apply (header_reports_last_sample [sample_flat] sample_down 10 None None).
    reflexivity.
  - apply (header_reports_last_sample [sample_flat] sample_down 10
             (Some "平安银行"%string) None).
    reflexivity.
Defined.

(** X10.  The tooltip of an empty [params] is empty.  Otherwise it opens
    with one header, made of the day and the time of the first entry, and
    then has two rows for every entry of the price series, one for every
    entry of the average series and of the volume series, and none for any
    other series. *)
Theorem tooltip_rows_per_series
    (preClose : Q) (today : JS.Date) (params : list TooltipParam) :
  let is_price p := match series p with PriceSeries _ => true | _ => false end in
  let is_avg p := match series p with AvgSeries _ => true | _ => false end in
  let is_volume p := match series p with VolumeSeries _ => true | _ => false end in
  (params = [] -> tooltipFormatter preClose today params = []) /\
  (forall first others, params = first :: others ->
     hd_error (tooltipFormatter preClose today params) =
       Some (HeaderLine (dateStr today ++ " " ++ axisValue first)%string) /\
     List.length (tooltipFormatter preClose today params) =
       (1 + 2 * List.length (filter is_price params)
          + List.length (filter is_avg params)
          + List.length (filter is_volume params))%nat).
Proof.
  intros is_price is_avg is_volume. split.
  - intros ->. reflexivity.
  - intros first others ->. split; [reflexivity |].
    assert (Hrows : forall l,
              List.length (flat_map (tooltipRows preClose) l) =
              (2 * List.length (filter is_price l)
               + List.length (filter is_avg l)
               + List.length (filter is_volume l))%nat).
    { induction l as [|p rest IH]; [reflexivity |].
      simpl flat_map. rewrite length_app, IH. simpl filter.
      unfold is_price, is_avg, is_volume, tooltipRows.
      destruct (series p); simpl List.length; lia. }
    unfold tooltipFormatter.
    change (List.length (?h :: ?t)) with (S (List.length t)).
    rewrite Hrows. reflexivity.
Qed.

Lemma tooltip_rows_per_series_witness :
  List.length (tooltipFormatter 10 (JS.mkDate 2026 10 2)
                 [mkParam "09:31" (PriceSeries 10.05);
                  mkParam "09:31" (AvgSeries 10.02);
                  mkParam "09:31" (VolumeSeries 12345)]) = 5%nat.
Proof.
  destruct (tooltip_rows_per_series 10 (JS.mkDate 2026 10 2)
              [mkParam "09:31" (PriceSeries 10.05);
               mkParam "09:31" (AvgSeries 10.02);
               mkParam "09:31" (VolumeSeries 12345)]) as [_ Hrows].
  destruct (Hrows _ _ Logic.eq_refl) as [_ Hlen].
  exact Hlen.
Defined.

(** * The notable-trader list *)

(** ** Dates *)

(** X12.  A date of eight characters comes out with ten, a dash after the
    year and after the month; any other string comes out unchanged.
    Formatting twice is formatting once, and taking the dashes out of a
    formatted date that had none gives the date back. *)
Theorem formatDate_round_trip (dateStr : DragonTiger.jsstring) :
  (List.length dateStr = 8%nat ->
   List.length (DragonTiger.formatDate dateStr) = 10%nat /\
   nth_error (DragonTiger.formatDate dateStr) 4 = Some DragonTiger.dash /\
   nth_error (DragonTiger.formatDate dateStr) 7 = Some DragonTiger.dash) /\
  (List.length dateStr <> 8%nat -> DragonTiger.formatDate dateStr = dateStr) /\
  DragonTiger.formatDate (DragonTiger.formatDate dateStr) =
    DragonTiger.formatDate dateStr /\
  (Forall (fun c => c <> DragonTiger.dash) dateStr ->
   filter (fun c => negb (N.eqb c DragonTiger.dash)) (DragonTiger.formatDate dateStr) =
   dateStr).
Proof.
  assert (Hkeep : forall s : DragonTiger.jsstring,
            Forall (fun c => c <> DragonTiger.dash) s ->
            filter (fun c => negb (N.eqb c DragonTiger.dash)) s = s).
  { induction 1 as [|c s Hc _ IH]; [reflexivity |].
    simpl. apply N.eqb_neq in Hc. rewrite Hc. simpl. rewrite IH. reflexivity. }
  unfold DragonTiger.formatDate.
  destruct (Nat.eqb (List.length dateStr) 8) eqn:E.
  - do 9 (destruct dateStr as [|? dateStr]; try discriminate).
    cbn [DragonTiger.slice firstn skipn Nat.sub app List.length Nat.eqb].
    split; [intros _; repeat split |].
    split; [intros H; exfalso; apply H; reflexivity |].
    split; [reflexivity |].
    intros Hclean.
    repeat match goal with
           | H : Forall _ (_ :: _) |- _ => inversion H; subst; clear H
           end.
    cbn [filter].
    repeat match goal with
           | H : ?c <> DragonTiger.dash |- _ =>
               apply N.eqb_neq in H; rewrite H; clear H
           end.
    rewrite N.eqb_refl. reflexivity.
  - pose proof E as Hlen. apply Nat.eqb_neq in Hlen.
    split; [intros H; contradiction |].
    split; [reflexivity |].
    rewrite E. split; [reflexivity | apply Hkeep].
Qed.

Lemma formatDate_round_trip_witness :
  List.length (DragonTiger.formatDate [50; 48; 50; 54; 49; 49; 48; 50]%N) = 10%nat /\
  nth_error (DragonTiger.formatDate [50; 48; 50; 54; 49; 49; 48; 50]%N) 4 =
    Some DragonTiger.dash /\
  nth_error (DragonTiger.formatDate [50; 48; 50; 54; 49; 49; 48; 50]%N) 7 =
    Some DragonTiger.dash.
Proof.
  apply (formatDate_round_trip [50; 48; 50; 54; 49; 49; 48; 50]%N). reflexivity.
Defined.

(** ** Amounts *)

Lemma lt_congruence (a b c d : Q) : a == c -> b == d -> JS.lt a b = JS.lt c d.
Proof. intros Hac Hbd. unfold JS.lt. rewrite Hac, Hbd. reflexivity. Qed.

(** [toFixed] reads the number, not the fraction that stands for it. *)
Lemma toFixed_wd (x y : Q) (d : nat) : x == y -> JS.toFixed x d = JS.toFixed y d.
Proof.
  intros Hxy. unfold JS.toFixed, JS.nearest.
  rewrite (lt_congruence x 0 y 0 Hxy (Qeq_refl 0)).
  assert (E : Qabs x * inject_Z (10 ^ Z.of_nat d) + (1 # 2) ==
              Qabs y * inject_Z (10 ^ Z.of_nat d) + (1 # 2))
    by (rewrite (Qabs_wd _ _ Hxy); reflexivity).
  rewrite (Qfloor_comp _ _ E). reflexivity.
Qed.

(** The digits of a negative number are those of its opposite. *)
Lemma toFixed_opp (x : Q) (d : nat) :
  0 < x -> JS.toFixed (- x) d = ("-" ++ JS.toFixed x d)%string.
Proof.
  intros Hpos. unfold JS.toFixed, JS.nearest.
  assert (Hneg : JS.lt (- x) 0 = true) by (apply lt_true_iff; lra).
  assert (Hnot : JS.lt x 0 = false).
  { destruct (JS.lt x 0) eqn:E; [| reflexivity].
    apply lt_true_iff in E. lra. }
  rewrite Hneg, Hnot.
  assert (E : Qabs (- x) * inject_Z (10 ^ Z.of_nat d) + (1 # 2) ==
              Qabs x * inject_Z (10 ^ Z.of_nat d) + (1 # 2))
    by (rewrite Qabs_opp; reflexivity).
  rewrite (Qfloor_comp _ _ E). reflexivity.
Qed.

(** X13.  An amount below zero is written as a minus sign followed by what
    the amount of the same size above zero is written as: the tier and the
    digits depend on the size alone. *)
Theorem formatAmount_sign (value : Q) :
  0 < value ->
  DragonTiger.formatAmount (- value) = ("-" ++ DragonTiger.formatAmount value)%string.
Proof.
  intros Hpos. unfold DragonTiger.formatAmount.
  rewrite (ge_congruence (Qabs (- value)) 100000000 (Qabs value) 100000000
             (Qabs_opp value) (Qeq_refl _)).
  rewrite (ge_congruence (Qabs (- value)) 10000 (Qabs value) 10000
             (Qabs_opp value) (Qeq_refl _)).
  assert (Hdiv : forall c, 0 < c -> forall d,
            JS.toFixed (- value / c) d = ("-" ++ JS.toFixed (value / c) d)%string).
  { intros c Hc d.
    assert (E : - value / c == - (value / c)) by (field; lra).
    rewrite (toFixed_wd _ _ d E). apply toFixed_opp.
    apply Qlt_shift_div_l; [exact Hc | lra]. }
  destruct (JS.ge (Qabs value) 100000000).
  - rewrite Hdiv by reflexivity. reflexivity.
  - destruct (JS.ge (Qabs value) 10000).
    + rewrite Hdiv by reflexivity. reflexivity.
    + apply toFixed_opp. exact Hpos.
Qed.

Lemma formatAmount_sign_witness :
  DragonTiger.formatAmount (- 123456789) =
  ("-" ++ DragonTiger.formatAmount 123456789)%string.
Proof.
  apply (formatAmount_sign 123456789). reflexivity.
Defined.

(** X14.  Just below the hundred millions the abbreviation overshoots: every
    amount from 99,995,000 up to, not including, 100,000,000 is written
    "10000万", in the unit of the tier below. *)
Theorem formatAmount_below_hundred_million (value : Q) :
  99995000 <= value -> value < 100000000 ->
  DragonTiger.formatAmount value = "10000万"%string.
Proof.
  intros Hlow Hhigh. unfold DragonTiger.formatAmount.
  assert (Habs : Qabs value == value) by (apply Qabs_pos; lra).
  assert (H1 : JS.ge (Qabs value) 100000000 = false)
    by (apply ge_false_iff; rewrite Habs; exact Hhigh).
  assert (H2 : JS.ge (Qabs value) 10000 = true)
    by (apply ge_true_iff; rewrite Habs; lra).
  rewrite H1, H2. unfold JS.toFixed.
  assert (Hsign : JS.lt (value / 10000) 0 = false).
  { destruct (JS.lt (value / 10000) 0) eqn:E; [| reflexivity].
    apply lt_true_iff in E.
    assert (0 <= value / 10000) by (apply Qle_shift_div_l; [reflexivity | lra]).
    lra. }
  assert (Hn : JS.nearest (value / 10000) 0 = 10000%Z).
  { unfold JS.nearest.
    assert (Hq : 0 <= value / 10000)
      by (apply Qle_shift_div_l; [reflexivity | lra]).
    rewrite (Qabs_pos _ Hq).
    change (inject_Z (10 ^ Z.of_nat 0)) with 1.
    set (y := value / 10000 * 1 + (1 # 2)).
    assert (Hy : 10000 <= y < 10001).
    { assert (E : y == value * (1 # 10000) + (1 # 2)) by (unfold y; field).
      rewrite E. split; lra. }
    pose proof (Qfloor_le y) as Hfl.
    assert (Hlo : (10000 <= Qfloor y)%Z).
    { rewrite <- (Qfloor_Z 10000). apply Qfloor_resp_le. exact (proj1 Hy). }
    assert (Hhi : (Qfloor y < 10001)%Z).
    { rewrite Zlt_Qlt. change (inject_Z 10001) with 10001.
      destruct Hy as [_ Hy]. clearbody y.
      generalize dependent (inject_Z (Qfloor y)). intros n Hfl. lra. }
    lia. }
  rewrite Hsign, Hn. reflexivity.
Qed.

Lemma formatAmount_below_hundred_million_witness :
  DragonTiger.formatAmount 99999999 = "10000万"%string.
Proof.
  apply (formatAmount_below_hundred_million 99999999); [discriminate | reflexivity].
Defined.

(** ** The overview counts *)

Lemma fold_left_sum_shift (l : list DragonTiger.DragonTigerItem) (a : Q) :
  fold_left (fun sum d => sum + DragonTiger.net_amount d) l a ==
  a + DragonTiger.sumNet l.
Proof.
  unfold DragonTiger.sumNet. revert a.
  induction l as [|d rest IH]; intro a; simpl.
  - ring.
  - rewrite (IH (a + DragonTiger.net_amount d)), (IH (0 + DragonTiger.net_amount d)).
    ring.
Qed.

Lemma sumNet_cons (d : DragonTiger.DragonTigerItem) (l : list DragonTiger.DragonTigerItem) :
  DragonTiger.sumNet (d :: l) == DragonTiger.net_amount d + DragonTiger.sumNet l.
Proof.
  unfold DragonTiger.sumNet at 1. simpl. rewrite fold_left_sum_shift. ring.
Qed.

(** X15.  The overview is consistent with the list: net buyers and net
    sellers are counted apart and together never exceed the total, the
    difference being the rows whose net amount is zero; both totals are at
    least zero, and a total is zero exactly when its count is. *)
Theorem stats_add_up (data : list DragonTiger.DragonTigerItem) :
  let st := DragonTiger.stats data in
  let flat := filter (fun d => Qeq_bool (DragonTiger.net_amount d) 0) data in
  (DragonTiger.netBuy st + DragonTiger.netSell st + List.length flat =
   DragonTiger.total st)%nat /\
  0 <= DragonTiger.totalNetBuy st /\
  0 <= DragonTiger.totalNetSell st /\
  (DragonTiger.totalNetBuy st == 0 <-> DragonTiger.netBuy st = 0%nat) /\
  (DragonTiger.totalNetSell st == 0 <-> DragonTiger.netSell st = 0%nat).
Proof.
  cbv zeta. unfold DragonTiger.stats. cbn [DragonTiger.netBuy DragonTiger.netSell
    DragonTiger.total DragonTiger.totalNetBuy DragonTiger.totalNetSell].
  set (buy := filter (fun d => JS.gt (DragonTiger.net_amount d) 0) data).
  set (sell := filter (fun d => JS.lt (DragonTiger.net_amount d) 0) data).
  assert (Hbuy : 0 <= DragonTiger.sumNet buy /\
                 (DragonTiger.sumNet buy == 0 <-> List.length buy = 0%nat)).
  { assert (Hall : Forall (fun d => 0 < DragonTiger.net_amount d) buy).
    { apply Forall_forall. intros d Hd. apply filter_In in Hd.
      apply gt_true_iff. exact (proj2 Hd). }
    clearbody buy. induction Hall as [|d rest Hd _ [IH1 IH2]].
    - split; [discriminate | split; reflexivity].
    - rewrite sumNet_cons. split; [lra |].
      split; [intro H; exfalso; lra | discriminate]. }
  assert (Hsell : DragonTiger.sumNet sell <= 0 /\
                  (DragonTiger.sumNet sell == 0 <-> List.length sell = 0%nat)).
  { assert (Hall : Forall (fun d => DragonTiger.net_amount d < 0) sell).
    { apply Forall_forall. intros d Hd. apply filter_In in Hd.
      apply lt_true_iff. exact (proj2 Hd). }
    clearbody sell. induction Hall as [|d rest Hd _ [IH1 IH2]].
    - split; [discriminate | split; reflexivity].
    - rewrite sumNet_cons. split; [lra |].
      split; [intro H; exfalso; lra | discriminate]. }
  destruct Hbuy as [Hbuy0 Hbuy1]. destruct Hsell as [Hsell0 Hsell1].
  assert (Habs : Qabs (DragonTiger.sumNet sell) == - DragonTiger.sumNet sell)
    by (apply Qabs_neg; exact Hsell0).
  split; [| split; [exact Hbuy0 | split; [apply Qabs_nonneg | split]]].
  - subst buy sell. clear. induction data as [|d rest IH]; [reflexivity |].
    simpl filter.
    destruct (JS.gt (DragonTiger.net_amount d) 0) eqn:Egt;
      destruct (JS.lt (DragonTiger.net_amount d) 0) eqn:Elt;
      destruct (Qeq_bool (DragonTiger.net_amount d) 0) eqn:Eeq;
      try apply gt_true_iff in Egt; try apply lt_true_iff in Elt;
      try apply Qeq_bool_iff in Eeq; try (exfalso; lra);
      simpl List.length; try lia.
    exfalso. apply Qeq_bool_neq in Eeq.
    assert (Hle : DragonTiger.net_amount d <= 0).
    { apply Qnot_lt_le. intro H. apply (proj2 (gt_true_iff _ _)) in H. congruence. }
    assert (Hge : 0 <= DragonTiger.net_amount d).
    { apply Qnot_lt_le. intro H. apply (proj2 (lt_true_iff _ _)) in H. congruence. }
    apply Eeq. apply Qle_antisym; assumption.
  - exact Hbuy1.
  - rewrite <- Hsell1. rewrite Habs. split; intro H; lra.
Qed.

(** ** Reason badges *)

Lemma length_slice {A : Type} (a b : nat) (l : list A) :
  List.length (DragonTiger.slice a b l) = Nat.min (b - a) (List.length l - a).
Proof. unfold DragonTiger.slice. rewrite length_firstn, length_skipn. reflexivity. Qed.

(** X16.  A row without reasons has no badges.  A row with reasons shows
    the first two at most, in their order, and counts the others in a
    [+N] badge that is there exactly when there are more than two: badges
    shown plus reasons counted make up all the reasons.  A label is the
    reason itself up to eight characters; a longer reason keeps its first
    eight characters, followed by three dots. *)
Theorem reason_badges_account_for_all
    (item : DragonTiger.DragonTigerItem) (rs : list DragonTiger.jsstring) :
  (DragonTiger.reasons item = None \/ DragonTiger.reasons item = Some [] ->
   DragonTiger.reasonBadges item = None) /\
  (DragonTiger.reasons item = Some rs -> rs <> [] ->
   exists badges,
     DragonTiger.reasonBadges item = Some badges /\
     (List.length (DragonTiger.shown badges) <= 2)%nat /\
     (List.length (DragonTiger.shown badges) +
      match DragonTiger.more badges with Some n => n | None => 0 end =
      List.length rs)%nat /\
     (DragonTiger.more badges <> None <-> (2 < List.length rs)%nat) /\
     forall i label,
       nth_error (DragonTiger.shown badges) i = Some label ->
       exists reason,
         nth_error rs i = Some reason /\
         firstn 8 label = firstn 8 reason /\
         (List.length label <= 11)%nat /\
         ((List.length reason <= 8)%nat -> label = reason) /\
         ((8 < List.length reason)%nat ->
          label = firstn 8 reason ++ [DragonTiger.dot; DragonTiger.dot; DragonTiger.dot])).
Proof.
  unfold DragonTiger.reasonBadges. split.
  - intros [-> | ->]; reflexivity.
  - intros -> Hne.
    assert (Hlen : (0 <? List.length rs)%nat = true).
    { apply Nat.ltb_lt. destruct rs; [congruence | simpl; lia]. }
    rewrite Hlen. eexists. split; [reflexivity |].
    cbn [DragonTiger.shown DragonTiger.more].
    rewrite length_map, length_slice.
    split; [lia |]. split; [| split].
    + destruct (2 <? List.length rs)%nat eqn:E.
      * apply Nat.ltb_lt in E. lia.
      * apply Nat.ltb_ge in E. lia.
    + destruct (2 <? List.length rs)%nat eqn:E.
      * apply Nat.ltb_lt in E. split; [intros _; exact E | discriminate].
      * apply Nat.ltb_ge in E. split; [congruence | lia].
    + intros i label Hi.
      rewrite nth_error_map in Hi. unfold DragonTiger.slice in Hi.
      simpl skipn in Hi. rewrite nth_error_firstn in Hi.
      destruct (i <? 2 - 0)%nat; [| discriminate].
      destruct (nth_error rs i) as [reason|]; [| discriminate].
      injection Hi as <-. exists reason. split; [reflexivity |].
      unfold DragonTiger.reasonLabel.
      destruct (8 <? List.length reason)%nat eqn:E.
      * apply Nat.ltb_lt in E. unfold DragonTiger.slice.
        change (skipn 0 reason) with reason. change (8 - 0)%nat with 8%nat.
        assert (H8 : List.length (firstn 8 reason) = 8%nat)
          by (rewrite length_firstn; lia).
        split; [| split; [| split; [lia | reflexivity]]].
        -- rewrite firstn_app, H8, Nat.sub_diag, firstn_O, app_nil_r.
           rewrite firstn_firstn, Nat.min_id. reflexivity.
        -- rewrite length_app, H8. cbn [List.length]. lia.
      * apply Nat.ltb_ge in E.
        split; [reflexivity | split; [lia | split; [reflexivity | lia]]].
Qed.

Lemma reason_badges_account_for_all_witness :
  let long := [26085; 28072; 24133; 20559; 31163; 20540; 36798; 21040; 55; 37]%N in
  let rs := [long; [65; 66]%N; [67]%N] in
  let item := DragonTiger.mkItem [] [] 0 0 0 (Some rs) in
  exists badges,
    DragonTiger.reasonBadges item = Some badges /\
    (List.length (DragonTiger.shown badges) <= 2)%nat /\
    (List.length (DragonTiger.shown badges) +
     match DragonTiger.more badges with Some n => n | None => 0 end =
     List.length rs)%nat /\
    (DragonTiger.more badges <> None <-> (2 < List.length rs)%nat) /\
    forall i label,
      nth_error (DragonTiger.shown badges) i = Some label ->
      exists reason,
        nth_error rs i = Some reason /\
        firstn 8 label = firstn 8 reason /\
        (List.length label <= 11)%nat /\
        ((List.length reason <= 8)%nat -> label = reason) /\
        ((8 < List.length reason)%nat ->
         label = firstn 8 reason ++ [DragonTiger.dot; DragonTiger.dot; DragonTiger.dot]).
Proof.
  intros long rs item.
  apply (reason_badges_account_for_all item rs).
  - reflexivity.
  - discriminate.
Defined.

(** * The sector heat panel *)

(** ** Tile colours *)

Lemma ge_floor (v : Q) (n : Z) :
  JS.ge v (inject_Z n) = JS.ge (inject_Z (Qfloor v)) (inject_Z n).
Proof.
  destruct (JS.ge (inject_Z (Qfloor v)) (inject_Z n)) eqn:E.
  - apply ge_true_iff in E. apply ge_true_iff.
    pose proof (Qfloor_le v). lra.
  - apply ge_false_iff in E. apply ge_false_iff.
    rewrite <- Zlt_Qlt in E.
    pose proof (Qlt_floor v) as Hv.
    assert (Hn : inject_Z (Qfloor v + 1) <= inject_Z n)
      by (rewrite <- Zle_Qle; lia).
    lra.
Qed.

(** The background of a tile, tier by tier. *)
Lemma getHeatColor_cases (v : Q) :
  (5 <= v /\ SectorHeat.getHeatColor v = "bg-[#dc2626]"%string) \/
  (4 <= v < 5 /\ SectorHeat.getHeatColor v = "bg-[#ef4444]"%string) \/
  (3 <= v < 4 /\ SectorHeat.getHeatColor v = "bg-[#f87171]"%string) \/
  (2 <= v < 3 /\ SectorHeat.getHeatColor v = "bg-[#fca5a5]"%string) \/
  (1 <= v < 2 /\ SectorHeat.getHeatColor v = "bg-[#fecaca]"%string) \/
  (0 <= v < 1 /\ SectorHeat.getHeatColor v = "bg-slate-300"%string) \/
  (- 1 <= v < 0 /\ SectorHeat.getHeatColor v = "bg-[#bbf7d0]"%string) \/
  (- 2 <= v < - 1 /\ SectorHeat.getHeatColor v = "bg-[#86efac]"%string) \/
  (- 3 <= v < - 2 /\ SectorHeat.getHeatColor v = "bg-[#4ade80]"%string) \/
  (v < - 3 /\ SectorHeat.getHeatColor v = "bg-[#22c55e]"%string).
Proof.
  unfold SectorHeat.getHeatColor.
  repeat match goal with
         | |- context [if JS.ge v ?c then _ else _] =>
             let E := fresh "E" in
             destruct (JS.ge v c) eqn:E;
             [apply ge_true_iff in E | apply ge_false_iff in E]
         end;
    repeat match goal with
           | |- (_ /\ ?c = ?c) \/ _ => left; split; [lra || (split; lra) | reflexivity]
           | |- (_ /\ ?c = ?c) => split; [lra || (split; lra) | reflexivity]
           | |- _ \/ _ => right
           end.
Qed.

(** The text of a tile, by the size of the change. *)
Lemma getTextColor_cases (v : Q) :
  ((2 <= v \/ v <= - 2) /\ SectorHeat.getTextColor v = "text-white"%string) \/
  (0 <= v < 2 /\ SectorHeat.getTextColor v = "text-red-900"%string) \/
  (- 2 < v < 0 /\ SectorHeat.getTextColor v = "text-green-900"%string).
Proof.
  unfold SectorHeat.getTextColor.
  destruct (JS.ge v 2) eqn:E1; [apply ge_true_iff in E1 | apply ge_false_iff in E1].
  - left. split; [left; exact E1 | reflexivity].
  - destruct (JS.ge (- 2) v) eqn:E2;
      [apply ge_true_iff in E2 | apply ge_false_iff in E2]; simpl.
    + left. split; [right; exact E2 | reflexivity].
    + destruct (JS.ge v 0) eqn:E3;
        [apply ge_true_iff in E3 | apply ge_false_iff in E3].
      * right. left. split; [split; lra | reflexivity].
      * right. right. split; [split; lra | reflexivity].
Qed.

(** X17.  The background of a tile depends on the change rounded down to a
    whole percent only, and not at all beyond 5 and below -4: it is the
    background of that whole number. *)
Theorem heat_colour_by_whole_percent (value : Q) :
  SectorHeat.getHeatColor value =
    SectorHeat.getHeatColor (inject_Z (Qfloor value)) /\
  (5 <= value -> SectorHeat.getHeatColor value = SectorHeat.getHeatColor 5) /\
  (value < - 3 -> SectorHeat.getHeatColor value = SectorHeat.getHeatColor (- 4)).
Proof.
  split; [| split].
  - unfold SectorHeat.getHeatColor.
    rewrite (ge_floor value 5 : JS.ge value 5 = _),
            (ge_floor value 4 : JS.ge value 4 = _),
            (ge_floor value 3 : JS.ge value 3 = _),
            (ge_floor value 2 : JS.ge value 2 = _),
            (ge_floor value 1 : JS.ge value 1 = _),
            (ge_floor value 0 : JS.ge value 0 = _),
            (ge_floor value (-1) : JS.ge value (- 1) = _),
            (ge_floor value (-2) : JS.ge value (- 2) = _),
            (ge_floor value (-3) : JS.ge value (- 3) = _).
    reflexivity.
  - intros H.
    destruct (getHeatColor_cases value)
      as [[_ ->] | [[[_ C] _] | [[[_ C] _] | [[[_ C] _] | [[[_ C] _] |
          [[[_ C] _] | [[[_ C] _] | [[[_ C] _] | [[[_ C] _] | [C _]]]]]]]]]];
      try reflexivity; exfalso; lra.
  - intros H.
    destruct (getHeatColor_cases value)
      as [[C _] | [[[C _] _] | [[[C _] _] | [[[C _] _] | [[[C _] _] |
          [[[C _] _] | [[[C _] _] | [[[C _] _] | [[[C _] _] | [_ ->]]]]]]]]]];
      try reflexivity; exfalso; lra.
Qed.

Lemma heat_colour_by_whole_percent_witness :
  SectorHeat.getHeatColor 7.3 = SectorHeat.getHeatColor 5.
Proof.
  apply (heat_colour_by_whole_percent 7.3). discriminate.
Defined.

(** X18.  Background and text of a tile go together: two changes with the
    same background have the same text colour, unless one of them is
    exactly -2, which has the text of the tier below its own. *)
Theorem tile_text_follows_background (v w : Q) :
  SectorHeat.getHeatColor v = SectorHeat.getHeatColor w ->
  ~ v == - 2 -> ~ w == - 2 ->
  SectorHeat.getTextColor v = SectorHeat.getTextColor w.
Proof.
  intros Hsame Hv Hw.
  assert (Hv' : v < - 2 \/ - 2 < v).
  { destruct (Q_dec v (- 2)) as [[H | H] | H]; [left | right | contradiction]; exact H. }
  assert (Hw' : w < - 2 \/ - 2 < w).
  { destruct (Q_dec w (- 2)) as [[H | H] | H]; [left | right | contradiction]; exact H. }
  destruct (getTextColor_cases v) as [[Tv ->] | [[Tv ->] | [Tv ->]]];
    destruct (getTextColor_cases w) as [[Tw ->] | [[Tw ->] | [Tw ->]]];
    try reflexivity; exfalso;
    destruct (getHeatColor_cases v)
      as [[Cv Ev] | [[Cv Ev] | [[Cv Ev] | [[Cv Ev] | [[Cv Ev] |
          [[Cv Ev] | [[Cv Ev] | [[Cv Ev] | [[Cv Ev] | [Cv Ev]]]]]]]]]];
    rewrite Ev in Hsame;
    destruct (getHeatColor_cases w)
      as [[Cw Ew] | [[Cw Ew] | [[Cw Ew] | [[Cw Ew] | [[Cw Ew] |
          [[Cw Ew] | [[Cw Ew] | [[Cw Ew] | [[Cw Ew] | [Cw Ew]]]]]]]]]];
    rewrite Ew in Hsame; try discriminate Hsame;
    clear Hsame Ev Ew; destruct Hv'; destruct Hw';
    repeat match goal with H : _ \/ _ |- _ => destruct H end; lra.
Qed.

Lemma tile_text_follows_background_witness :
  SectorHeat.getTextColor (- 1.2) = SectorHeat.getTextColor (- 1.9).
Proof.
  apply (tile_text_follows_background (- 1.2) (- 1.9)).
  - reflexivity.
  - discriminate.
  - discriminate.
Defined.

(** ** Boards *)

Section Sorting.

Variable A : Type.
Variable compare : A -> A -> Q.

(** The comparator is an order: of two elements one may go first, and going
    first is transitive. *)
Hypothesis compare_total : forall a b, ~ compare a b <= 0 -> compare b a <= 0.
Hypothesis compare_trans :
  forall a b c, compare a b <= 0 -> compare b c <= 0 -> compare a c <= 0.

Lemma insert_perm (x : A) (l : list A) :
  Permutation (SectorHeat.insert compare x l) (x :: l).
Proof.
  induction l as [|y rest IH]; simpl; [apply Permutation_refl |].
  destruct (Qle_bool (compare x y) 0); [apply Permutation_refl |].
  apply perm_trans with (y :: x :: rest).
  - apply perm_skip. exact IH.
  - apply perm_swap.
Qed.

Lemma sort_perm (l : list A) : Permutation (SectorHeat.sort compare l) l.
Proof.
  induction l as [|x rest IH]; simpl; [apply perm_nil |].
  apply perm_trans with (x :: SectorHeat.sort compare rest).
  - apply insert_perm.
  - apply perm_skip. exact IH.
Qed.

Lemma insert_sorted (x : A) (l : list A) :
  StronglySorted (fun a b => compare a b <= 0) l ->
  StronglySorted (fun a b => compare a b <= 0) (SectorHeat.insert compare x l).
Proof.
  induction 1 as [|y rest Hsorted IH Hall]; simpl.
  - constructor; constructor.
  - destruct (Qle_bool (compare x y) 0) eqn:E.
    + apply Qle_bool_iff in E. constructor.
      * constructor; assumption.
      * constructor; [exact E |].
        apply Forall_forall. intros z Hz.
        apply compare_trans with y; [exact E |].
        rewrite Forall_forall in Hall. apply Hall. exact Hz.
    + assert (Hyx : compare y x <= 0).
      { apply compare_total. intro H. apply Qle_bool_iff in H. congruence. }
      constructor; [exact IH |].
      apply Forall_forall. intros z Hz.
      apply (Permutation_in _ (insert_perm x rest)) in Hz.
      destruct Hz as [<- | Hz]; [exact Hyx |].
      rewrite Forall_forall in Hall. apply Hall. exact Hz.
Qed.

Lemma sort_sorted (l : list A) :
  StronglySorted (fun a b => compare a b <= 0) (SectorHeat.sort compare l).
Proof.
  induction l as [|x rest IH]; simpl; [constructor |].
  apply insert_sorted. exact IH.
Qed.

End Sorting.

Lemma StronglySorted_app_inv {A : Type} (R : A -> A -> Prop) (l1 l2 : list A) :
  StronglySorted R (l1 ++ l2) ->
  StronglySorted R l1 /\ forall a b, In a l1 -> In b l2 -> R a b.
Proof.
  induction l1 as [|x rest IH]; simpl; intros Hsorted.
  - split; [constructor | intros a b []].
  - inversion Hsorted as [|? ? Hrest Hall]; subst.
    destruct (IH Hrest) as [Hs Hcross]. split.
    + constructor; [exact Hs |].
      apply Forall_forall. intros z Hz. rewrite Forall_forall in Hall.
      apply Hall. apply in_or_app. left. exact Hz.
    + intros a b [<- | Ha] Hb.
      * rewrite Forall_forall in Hall. apply Hall. apply in_or_app. right. exact Hb.
      * apply Hcross; assumption.
Qed.

Lemma StronglySorted_weaken {A : Type} (R S : A -> A -> Prop) (l : list A) :
  (forall a b, R a b -> S a b) -> StronglySorted R l -> StronglySorted S l.
Proof.
  intros Himp. induction 1 as [|x rest _ IH Hall]; constructor; [exact IH |].
  apply Forall_forall. intros z Hz. rewrite Forall_forall in Hall.
  apply Himp. apply Hall. exact Hz.
Qed.

(** What a board is, for any comparator that is an order and any test. *)
Lemma board_facts {A : Type} (compare : A -> A -> Q) (keep : A -> bool) (l : list A) :
  (forall a b, ~ compare a b <= 0 -> compare b a <= 0) ->
  (forall a b c, compare a b <= 0 -> compare b c <= 0 -> compare a c <= 0) ->
  let board := firstn 8 (SectorHeat.sort compare (filter keep l)) in
  List.length board = Nat.min 8 (List.length (filter keep l)) /\
  (forall s, In s board -> In s l /\ keep s = true) /\
  StronglySorted (fun a b => compare a b <= 0) board /\
  (forall s t, In s l -> keep s = true -> ~ In s board -> In t board ->
               compare t s <= 0).
Proof.
  intros Htotal Htrans board.
  pose proof (sort_perm A compare (filter keep l)) as Hperm.
  pose proof (sort_sorted A compare Htotal Htrans (filter keep l)) as Hsorted.
  rewrite <- (firstn_skipn 8 (SectorHeat.sort compare (filter keep l))) in Hsorted.
  apply StronglySorted_app_inv in Hsorted. destruct Hsorted as [Hboard Hcross].
  split; [| split; [| split]].
  - unfold board. rewrite length_firstn, (Permutation_length Hperm). reflexivity.
  - intros s Hs.
    assert (Hin : In s (SectorHeat.sort compare (filter keep l))).
    { rewrite <- (firstn_skipn 8). apply in_or_app. left. exact Hs. }
    apply (Permutation_in _ Hperm) in Hin. apply filter_In in Hin. exact Hin.
  - exact Hboard.
  - intros s t Hs Hkeep Hout Ht. apply Hcross; [exact Ht |].
    assert (Hin : In s (SectorHeat.sort compare (filter keep l))).
    { apply (Permutation_in _ (Permutation_sym Hperm)).
      apply filter_In. split; assumption. }
    rewrite <- (firstn_skipn 8) in Hin. apply in_app_or in Hin.
    destruct Hin as [Hin | Hin]; [contradiction | exact Hin].
Qed.

(** The rows of the rise board. *)
Lemma rise_board_facts (hotList : list SectorHeat.SectorHotData) :
  List.length (SectorHeat.risers hotList) =
    Nat.min 8 (List.length
                 (filter (fun s => JS.gt (SectorHeat.pct_change s) 0) hotList)) /\
  (forall s, In s (SectorHeat.risers hotList) ->
             0 < SectorHeat.pct_change s).
Proof.
  destruct (board_facts
              (fun a b => SectorHeat.pct_change b - SectorHeat.pct_change a)
              (fun s => JS.gt (SectorHeat.pct_change s) 0) hotList)
    as [Hlen [Hin _]].
  { intros a b H. apply Qnot_le_lt in H. lra. }
  { intros a b c Hab Hbc. lra. }
  split; [exact Hlen |].
  intros s Hs. apply gt_true_iff. exact (proj2 (Hin s Hs)).
Qed.

(** X19.  The rise board shows at most eight sectors, all taken from the
    list and all with a change above zero, the larger change first; it
    shows eight whenever that many rose; and no sector that rose and is
    left out rose more than one that is shown. *)
Theorem rise_board_shows_the_strongest (hotList : list SectorHeat.SectorHotData) :
  let board := SectorHeat.risers hotList in
  let rose := filter (fun s => JS.gt (SectorHeat.pct_change s) 0) hotList in
  List.length board = Nat.min 8 (List.length rose) /\
  (forall s, In s board -> In s hotList /\ 0 < SectorHeat.pct_change s) /\
  StronglySorted
    (fun a b => SectorHeat.pct_change b <= SectorHeat.pct_change a) board /\
  (forall s t, In s hotList -> 0 < SectorHeat.pct_change s ->
               ~ In s board -> In t board ->
               SectorHeat.pct_change s <= SectorHeat.pct_change t).
Proof.
  intros board rose.
  destruct (board_facts
              (fun a b => SectorHeat.pct_change b - SectorHeat.pct_change a)
              (fun s => JS.gt (SectorHeat.pct_change s) 0) hotList)
    as [Hlen [Hin [Hsorted Htop]]].
  { intros a b H. apply Qnot_le_lt in H. lra. }
  { intros a b c Hab Hbc. lra. }
  split; [exact Hlen | split; [| split]].
  - intros s Hs. destruct (Hin s Hs) as [Hl Hk].
    split; [exact Hl | apply gt_true_iff; exact Hk].
  - apply StronglySorted_weaken
      with (R := fun a b => SectorHeat.pct_change b - SectorHeat.pct_change a <= 0);
      [intros a b Hab; lra | exact Hsorted].
  - intros s t Hs Hpos Hout Ht.
    assert (H : SectorHeat.pct_change s - SectorHeat.pct_change t <= 0).
    { apply (Htop s t); [exact Hs | apply gt_true_iff; exact Hpos | exact Hout | exact Ht]. }
    lra.
Qed.

(** X20.  The fall board mirrors the rise board: at most eight sectors, all
    with a change below zero, the deeper fall first.  No sector is on both
    boards, a sector whose change is zero is on neither, and a board shows
    its empty message exactly when it has no row. *)
Theorem boards_are_disjoint (hotList : list SectorHeat.SectorHotData) :
  (List.length (SectorHeat.fallers hotList) <= 8)%nat /\
  (forall s, In s (SectorHeat.fallers hotList) ->
             In s hotList /\ SectorHeat.pct_change s < 0) /\
  StronglySorted
    (fun a b => SectorHeat.pct_change a <= SectorHeat.pct_change b)
    (SectorHeat.fallers hotList) /\
  (forall s, ~ (In s (SectorHeat.risers hotList) /\
                In s (SectorHeat.fallers hotList))) /\
  (forall s, SectorHeat.pct_change s == 0 ->
             ~ In s (SectorHeat.risers hotList) /\
             ~ In s (SectorHeat.fallers hotList)) /\
  (SectorHeat.noRisers hotList = true <-> SectorHeat.risers hotList = []) /\
  (SectorHeat.noFallers hotList = true <-> SectorHeat.fallers hotList = []).
Proof.
  destruct (board_facts
              (fun a b => SectorHeat.pct_change a - SectorHeat.pct_change b)
              (fun s => JS.lt (SectorHeat.pct_change s) 0) hotList)
    as [Hlen [Hin [Hsorted _]]].
  { intros a b H. apply Qnot_le_lt in H. lra. }
  { intros a b c Hab Hbc. lra. }
  destruct (rise_board_facts hotList) as [Hrlen Hrin].
  assert (Hfall : forall s, In s (SectorHeat.fallers hotList) ->
                            In s hotList /\ SectorHeat.pct_change s < 0).
  { intros s Hs. destruct (Hin s Hs) as [Hl Hk].
    split; [exact Hl | apply lt_true_iff; exact Hk]. }
  assert (Hempty : forall (l : list SectorHeat.SectorHotData) (n : nat),
            List.length l = Nat.min 8 n -> (Nat.eqb n 0 = true <-> l = [])).
  { intros l n Hl. rewrite Nat.eqb_eq. split.
    - intros ->. destruct l; [reflexivity | discriminate].
    - intros ->. simpl in Hl. destruct n; [reflexivity | discriminate]. }
  split; [unfold SectorHeat.fallers; rewrite Hlen; apply Nat.le_min_l |].
  split; [exact Hfall |].
  split.
  { apply StronglySorted_weaken
      with (R := fun a b => SectorHeat.pct_change a - SectorHeat.pct_change b <= 0);
      [intros a b Hab; lra | exact Hsorted]. }
  split; [| split; [| split]].
  - intros s [Hr Hf]. apply Hrin in Hr. apply Hfall in Hf. lra.
  - intros s Hzero. split; intro H.
    + apply Hrin in H. lra.
    + apply Hfall in H. lra.
  - apply Hempty. exact Hrlen.
  - apply Hempty. exact Hlen.
Qed.
